(** * atlas-test-client: the relay test harness, embedded and verified

    The development follows [src/build-transactions.ts] (its current text,
    lines 1-441) and [src/setup-keypair.ts].

    - JavaScript numbers are IEEE binary64 values ([SpecFloat] at precision 53),
      bigints are [Z], byte arrays are [list byte], strings are [string].
    - An [async] function is a program in the monad [Prog]: a tree of
      requests to the outside world (ledger gateway, relay, console, random
      source, file system) that ends by returning, throwing, or terminating
      the process.
    - Functions of the libraries the code calls ([@solana/web3.js], [bs58],
      [JSON.stringify], ed25519) whose results are only passed along are
      section variables.
    - The promises that [Promise.all] collects are awaited one after the
      other, in the order of the array.
    - A line of console output is recorded as the list of the values
      printed, without their formatting. *)

From Stdlib Require Import ZArith QArith SpecFloat Ascii String List.
From Stdlib.Strings Require Import Byte.
From Stdlib Require DecimalString.
From stdpp Require Import gmap strings list.

Set Warnings "-register-all".

Open Scope string_scope.
Open Scope list_scope.
Open Scope Z_scope.

(** ** JavaScript numbers *)

Module Number.

Definition t : Type := spec_float.

Definition prec : Z := 53.
Definition emax : Z := 1024.

(** The number denoted by an integer literal. *)
Definition of_Z (z : Z) : t := binary_normalize prec emax z 0 false.

Definition mul : t -> t -> t := SFmul prec emax.
Definition div : t -> t -> t := SFdiv prec emax.

(** The number denoted by the decimal literal [n / 10^k], for instance
    [0.01] is [decimal 1 2]: the binary64 value nearest to the fraction,
    which is what correctly rounded division of the two integers gives. *)
Definition decimal (n : Z) (k : Z) : t := div (of_Z n) (of_Z (10 ^ k)).

(** The mathematical value of a finite number. *)
Definition to_Q (x : t) : Q :=
  match x with
  | S754_finite s m e =>
      let v := if s then Z.neg m else Z.pos m in
      if (0 <=? e)%Z then inject_Z (v * 2 ^ e) else Qmake v (2 ^ Z.to_pos (- e))
  | _ => 0%Q
  end.

(** [IsIntegralNumber]: finite and without a fractional part. *)
Definition is_integral (x : t) : bool :=
  match x with
  | S754_zero _ => true
  | S754_finite _ m e => (0 <=? e) || (Z.pos m mod 2 ^ (- e) =? 0)
  | S754_infinity _ | S754_nan => false
  end.

(** The integer a number with [is_integral] stands for. *)
Definition to_Z (x : t) : Z :=
  match x with
  | S754_finite s m e =>
      let v := if (0 <=? e) then Z.pos m * 2 ^ e else Z.pos m / 2 ^ (- e) in
      if s then - v else v
  | _ => 0
  end.

End Number.

(** ** Values that are thrown *)

Inductive JsError : Type :=
| Error (msg : string)
| TypeError (msg : string)
| RangeError (msg : string)
| SyntaxError (msg : string)
| SystemError (code : string) (path : string)
| Rejection (reason : string).

(** [BigInt(x)] for a number [x]: a [RangeError] unless [x] is integral. *)
Definition BigInt (x : Number.t) : JsError + Z :=
  if Number.is_integral x then inr (Number.to_Z x)
  else inl (RangeError "The number cannot be converted to a BigInt because it is not an integer").

(** [LAMPORTS_PER_SOL] of [@solana/web3.js]. *)
Definition LAMPORTS_PER_SOL : Number.t := Number.of_Z 1000000000.

(** ** JSON values *)

Inductive json : Type :=
| JNull
| JBool (b : bool)
| JNum (n : Number.t)
| JStr (s : string)
| JArr (items : list json)
| JObj (fields : list (string * json)).

(** A JavaScript value that may be [undefined]. *)
Definition jsval : Type := option json.

Fixpoint assoc_get (fields : list (string * json)) (key : string) : jsval :=
  match fields with
  | [] => None
  | (k, v) :: rest => if String.eqb k key then Some v else assoc_get rest key
  end.

(** [v.key] for a value [v] received as response data: reading a property
    of [null] or [undefined] throws, a primitive or an array has no such
    property of its own. *)
Definition get_prop (v : jsval) (key : string) : JsError + jsval :=
  match v with
  | None | Some JNull => inl (TypeError ("Cannot read properties of undefined or null: " +:+ key))
  | Some (JObj fields) => inr (assoc_get fields key)
  | Some _ => inr None
  end.

(** ** Keys, messages and transactions ([@solana/web3.js]) *)

Definition Uint8Array : Type := list byte.

Global Instance byte_eq_dec : EqDecision byte := Byte.byte_eq_dec.

Definition PublicKey : Type := Uint8Array.

Record Keypair : Type := {
  publicKey : PublicKey;
  secretKey : Uint8Array
}.

Record MessageHeader : Type := {
  numRequiredSignatures : Z;
  numReadonlySignedAccounts : Z;
  numReadonlyUnsignedAccounts : Z
}.

Record MessageCompiledInstruction : Type := {
  programIdIndex : Z;
  accountKeyIndexes : list Z;
  data : Uint8Array
}.

Record MessageAddressTableLookup : Type := {
  accountKey : PublicKey;
  writableIndexes : list Z;
  readonlyIndexes : list Z
}.

Record MessageV0 : Type := {
  header : MessageHeader;
  staticAccountKeys : list PublicKey;
  recentBlockhash : string;
  compiledInstructions : list MessageCompiledInstruction;
  addressTableLookups : list MessageAddressTableLookup
}.

Record VersionedTransaction : Type := {
  signatures : list Uint8Array;
  message : MessageV0
}.

(** [SystemProgram.programId]: the all-zero key, written
    [11111111111111111111111111111111] in base 58. *)
Definition SystemProgram_programId : PublicKey := replicate 32 x00.

(** [new VersionedTransaction(message)]: one zeroed 64-byte signature slot
    per required signature. *)
Definition VersionedTransaction_new (m : MessageV0) : VersionedTransaction :=
  {| signatures := replicate (Z.to_nat (numRequiredSignatures (header m))) (replicate 64 x00);
     message := m |}.



Record Connection : Type := { rpcEndpoint : string }.

(** [new Connection(endpoint)]: the endpoint must match [/^https?:/]. *)
Definition Connection_new (endpoint : string) : JsError + Connection :=
  if String.prefix "http:" endpoint || String.prefix "https:" endpoint
  then inr {| rpcEndpoint := endpoint |}
  else inl (TypeError "Endpoint URL must start with `http:` or `https:`.").

Record BlockhashWithExpiryBlockHeight : Type := {
  blockhash : string;
  lastValidBlockHeight : Number.t
}.

Record AxiosResponse : Type := {
  status : Number.t;
  config_data : string;
  response_data : json
}.

(** ** Console output

    A line of output is the list of the values printed; [LSol x] stands for
    [formatSol(x)] and [LKey k] for [k.toString()]. *)

Inductive LogItem : Type :=
| LStr (s : string)
| LKey (k : PublicKey)
| LSol (lamports : Z)
| LNum (n : Number.t)
| LIndex (i : nat)
| LBool (b : bool)
| LVal (v : jsval)
| LErr (e : JsError).

(** ** Requests to the outside world *)

Inductive Event : Type -> Type :=
| FsExistsSync (path : string) : Event bool
| FsReadFileSync (path : string) : Event (JsError + string)
| FsWriteFileSync (path : string) (content : string) : Event unit
| RandomPrivateKey : Event Uint8Array
| ConsoleLog (items : list LogItem) : Event unit
| ConsoleError (items : list LogItem) : Event unit
| RpcGetBalance (c : Connection) (k : PublicKey) : Event (JsError + Number.t)
| RpcGetLatestBlockhash (c : Connection) : Event (JsError + BlockhashWithExpiryBlockHeight)
| RpcConfirmTransaction (c : Connection) (signature : jsval)
    (latest : BlockhashWithExpiryBlockHeight) (commitment : option string) :
    Event (JsError + json)
| RpcRequestAirdrop (c : Connection) (k : PublicKey) (lamports : Number.t) :
    Event (JsError + string)
| AxiosPost (url : string) (body : json) : Event (JsError + AxiosResponse).

(** Requests that go over the network. *)
Definition is_network {X} (ev : Event X) : bool :=
  match ev with
  | RpcGetBalance _ _ | RpcGetLatestBlockhash _ | RpcConfirmTransaction _ _ _ _
  | RpcRequestAirdrop _ _ _ | AxiosPost _ _ => true
  | _ => false
  end.

(** ** Programs *)

Inductive Prog (A : Type) : Type :=
| Ret (a : A)
| Throw (e : JsError)
| Exit (code : Z)
| Vis {X : Type} (ev : Event X) (k : X -> Prog A).

Arguments Ret {A} a.
Arguments Throw {A} e.
Arguments Exit {A} code.
Arguments Vis {A X} ev k.

Fixpoint bind {A B} (p : Prog A) (f : A -> Prog B) : Prog B :=
  match p with
  | Ret a => f a
  | Throw e => Throw e
  | Exit c => Exit c
  | Vis ev k => Vis ev (fun x => bind (k x) f)
  end.

Global Instance Prog_ret : MRet Prog := @Ret.
Global Instance Prog_bind : MBind Prog := fun A B f p => bind p f.

(** [try { p } catch (err) { h err }] *)
Fixpoint try_catch {A} (p : Prog A) (h : JsError -> Prog A) : Prog A :=
  match p with
  | Ret a => Ret a
  | Throw e => h e
  | Exit c => Exit c
  | Vis ev k => Vis ev (fun x => try_catch (k x) h)
  end.

Definition trigger {X} (ev : Event X) : Prog X := Vis ev Ret.

(** A synchronous result that may be a throw. *)
Definition lift {A} (r : JsError + A) : Prog A :=
  match r with
  | inl e => Throw e
  | inr a => Ret a
  end.

(** [await] of a request that may be rejected. *)
Definition await {A} (ev : Event (JsError + A)) : Prog A :=
  Vis ev lift.

Definition console_log (items : list LogItem) : Prog unit := trigger (ConsoleLog items).
Definition console_error (items : list LogItem) : Prog unit := trigger (ConsoleError items).

(** [xs.map(f)] with an [async] body awaited in order, the index passed
    along as in the callbacks of the source. *)
Fixpoint map_async_from {A B} (f : nat -> A -> Prog B) (i : nat) (xs : list A) : Prog (list B) :=
  match xs with
  | [] => Ret []
  | x :: rest => y ← f i x; ys ← map_async_from f (S i) rest; Ret (y :: ys)
  end.

Definition map_async {A B} (f : nat -> A -> Prog B) (xs : list A) : Prog (list B) :=
  map_async_from f 0%nat xs.

(** ** Byte arrays and the text of the key file *)

(** [Number.prototype.toString] of a byte: its decimal digits. *)
Definition byte_toString (b : byte) : string :=
  DecimalString.NilEmpty.string_of_uint (N.to_uint (Byte.to_N b)).

(** [Uint8Array.prototype.toString]: the elements joined by commas. *)
Definition Uint8Array_toString (bytes : Uint8Array) : string :=
  String.concat "," (map byte_toString bytes).

(** [Buffer.from(text)] and [Buffer.prototype.toString] (UTF-8 both ways;
    a [string] is its UTF-8 bytes). *)
Definition Buffer_from (text : string) : Uint8Array := list_byte_of_string text.
Definition Buffer_toString (buf : Uint8Array) : string := string_of_list_byte buf.

(** [ToUint8]: an integral number modulo 256, anything else 0. *)
Definition ToUint8 (x : Number.t) : byte :=
  if Number.is_integral x
  then default x00 (Byte.of_N (Z.to_N (Number.to_Z x mod 256)))
  else x00.

(** [Uint8Array.from(numbers)] *)
Definition Uint8Array_from (numbers : list Number.t) : Uint8Array := map ToUint8 numbers.

(** [JSON.parse] on the grammar of the key file, an array of integer
    literals separated by commas between square brackets, white space
    allowed around every token; an integer literal is an optional minus
    sign followed by a single 0 or by digits that do not start with 0.
    A text outside this grammar is answered with a syntax error, also
    where [JSON.parse] accepts it (an object, a string, a number with a
    fraction or an exponent). The parser is a state machine run over the
    characters. *)
Inductive parse_state : Type :=
| PStart
| PValue (acc : list Z) (first : bool)
| PMinus (acc : list Z)
| PZero (acc : list Z)
| PDigits (acc : list Z) (neg : bool) (n : Z)
| PAfter (acc : list Z)
| PDone (acc : list Z)
| PFail.

Definition is_ws (c : ascii) : bool :=
  match c with
  | " "%char | "009"%char | "010"%char | "013"%char => true
  | _ => false
  end.

Definition digit_of (c : ascii) : option Z :=
  let n := Z.of_N (N_of_ascii c) in
  if (48 <=? n) && (n <=? 57) then Some (n - 48) else None.

(** What may follow a complete value [v]. *)
Definition after_value (acc : list Z) (v : Z) (c : ascii) : parse_state :=
  if is_ws c then PAfter (v :: acc)
  else if Ascii.eqb c "," then PValue (v :: acc) false
  else if Ascii.eqb c "]" then PDone (v :: acc)
  else PFail.

Definition parse_step (st : parse_state) (c : ascii) : parse_state :=
  match st with
  | PStart =>
      if is_ws c then PStart
      else if Ascii.eqb c "[" then PValue [] true
      else PFail
  | PValue acc first =>
      if is_ws c then PValue acc first
      else if Ascii.eqb c "]" then (if first then PDone acc else PFail)
      else if Ascii.eqb c "-" then PMinus acc
      else match digit_of c with
           | Some 0 => PZero acc
           | Some d => PDigits acc false d
           | None => PFail
           end
  | PMinus acc =>
      match digit_of c with
      | Some 0 => PZero acc
      | Some d => PDigits acc true d
      | None => PFail
      end
  | PZero acc => after_value acc 0 c
  | PDigits acc neg n =>
      match digit_of c with
      | Some d => PDigits acc neg (10 * n + d)
      | None => after_value acc (if neg then - n else n) c
      end
  | PAfter acc =>
      if is_ws c then PAfter acc
      else if Ascii.eqb c "," then PValue acc false
      else if Ascii.eqb c "]" then PDone acc
      else PFail
  | PDone acc => if is_ws c then PDone acc else PFail
  | PFail => PFail
  end.

Fixpoint parse_run (st : parse_state) (text : string) : parse_state :=
  match text with
  | EmptyString => st
  | String c rest => parse_run (parse_step st c) rest
  end.

Definition JSON_parse (text : string) : JsError + list Number.t :=
  match parse_run PStart text with
  | PDone acc => inr (map Number.of_Z (rev acc))
  | _ => inl (SyntaxError "Unexpected token in JSON")
  end.

(** ** Property access on response data *)

(** [v.map] is callable only when [v] is an array. *)
Definition as_array (v : jsval) : JsError + list json :=
  match v with
  | Some (JArr items) => inr items
  | None | Some JNull => inl (TypeError "Cannot read properties of undefined or null: map")
  | Some _ => inl (TypeError "map is not a function")
  end.

(** [v.length === n] *)
Definition length_is (v : jsval) (n : Z) : JsError + bool :=
  match v with
  | None | Some JNull => inl (TypeError "Cannot read properties of undefined or null: length")
  | Some (JArr items) => inr (Z.of_nat (length items) =? n)
  | Some (JStr s) => inr (Z.of_nat (String.length s) =? n)
  | Some _ => inr false
  end.

(** [s.includes(sub)] *)
Definition includes (s sub : string) : bool :=
  match String.index 0 sub s with
  | Some _ => true
  | None => false
  end.

(** A string or [undefined] in a boolean position, and in a template. *)
Definition falsy (v : option string) : bool :=
  match v with
  | None | Some "" => true
  | Some _ => false
  end.

Definition template (v : option string) : string := default "undefined" v.

(** ** Observations of a run

    The file system is a finite map from paths to texts; [World] is the
    state of everything else outside the process. *)

Record State (World : Type) : Type := {
  files : gmap string string;
  world : World
}.

Arguments files {World} s.
Arguments world {World} s.

Inductive Obs : Type :=
| Observed {X : Type} (ev : Event X) (answer : X).

Inductive Outcome (A : Type) : Type :=
| Returned (a : A)
| Uncaught (e : JsError)
| Exited (code : Z).

Arguments Returned {A} a.
Arguments Uncaught {A} e.
Arguments Exited {A} code.

(** The exit status of the process: 1 after an uncaught exception, the
    argument of [process.exit], 0 otherwise. *)
Definition exit_code {A} (out : Outcome A) : Z :=
  match out with
  | Returned _ => 0
  | Uncaught _ => 1
  | Exited c => c
  end.

Definition obs_is_network (o : Obs) : bool :=
  match o with Observed ev _ => is_network ev end.

Definition is_fetch {X} (ev : Event X) : bool :=
  match ev with
  | RpcGetLatestBlockhash _ => true
  | _ => false
  end.

Definition is_post {X} (ev : Event X) : bool :=
  match ev with
  | AxiosPost _ _ => true
  | _ => false
  end.

Definition obs_is_fetch (o : Obs) : bool :=
  match o with Observed ev _ => is_fetch ev end.

(** The requests posted to the relay, in order. *)
Definition posts (obs : list Obs) : list (string * json) :=
  omap (fun o => match o with
                 | Observed (AxiosPost url body) _ => Some (url, body)
                 | _ => None
                 end) obs.

(** The reference points the ledger gateway has handed out, in order. *)
Definition fetched (obs : list Obs) : list string :=
  omap (fun o => match o with
                 | Observed (RpcGetLatestBlockhash _) (inr latest) => Some (blockhash latest)
                 | _ => None
                 end) obs.

Definition is_confirm {X} (ev : Event X) : bool :=
  match ev with
  | RpcConfirmTransaction _ _ _ _ => true
  | _ => false
  end.

Definition is_balance {X} (ev : Event X) : bool :=
  match ev with
  | RpcGetBalance _ _ => true
  | _ => false
  end.


Definition is_random {X} (ev : Event X) : bool :=
  match ev with
  | RandomPrivateKey => true
  | _ => false
  end.

Definition is_any_write {X} (ev : Event X) : bool :=
  match ev with
  | FsWriteFileSync _ _ => true
  | _ => false
  end.

(** An observation of a request of the kind [kind]. *)
Definition obs_is (kind : forall X, Event X -> bool) (o : Obs) : bool :=
  match o with Observed ev _ => kind _ ev end.

(** The errors with which the relay rejected requests, in order. *)
Definition rejections (obs : list Obs) : list JsError :=
  omap (fun o => match o with
                 | Observed (AxiosPost _ _) (inl e) => Some e
                 | _ => None
                 end) obs.

(** The files written, path and content, in order. *)
Definition written (obs : list Obs) : list (string * string) :=
  omap (fun o => match o with
                 | Observed (FsWriteFileSync path content) _ => Some (path, content)
                 | _ => None
                 end) obs.

(** The lines printed by [console.error], in order. *)
Definition error_lines (obs : list Obs) : list (list LogItem) :=
  omap (fun o => match o with
                 | Observed (ConsoleError items) _ => Some items
                 | _ => None
                 end) obs.


(** [always inv p h]: on every path through [p], started after the
    observations [h], each request is made at a point where [inv] holds of
    the observations so far and of the request. *)
Fixpoint always {A} (inv : list Obs -> forall X, Event X -> Prop)
    (p : Prog A) (h : list Obs) : Prop :=
  match p with
  | Vis ev k => inv h _ ev /\ forall x, always inv (k x) (h ++ [Observed ev x])
  | _ => True
  end.

(** [wp Q p h]: every path through [p], started after the observations
    [h], ends with observations and an outcome that satisfy [Q]. *)
Fixpoint wp {A} (Q : list Obs -> Outcome A -> Prop) (p : Prog A) (h : list Obs) : Prop :=
  match p with
  | Ret a => Q h (Returned a)
  | Throw e => Q h (Uncaught e)
  | Exit c => Q h (Exited c)
  | Vis ev k => forall x, wp Q (k x) (h ++ [Observed ev x])
  end.

(** [wp_on keep Q p h]: as [wp], of the observations of the requests
    selected by [keep] alone; the others leave [h] as it is. *)
Fixpoint wp_on {A} (keep : forall X, Event X -> bool)
    (Q : list Obs -> Outcome A -> Prop) (p : Prog A) (h : list Obs) : Prop :=
  match p with
  | Ret a => Q h (Returned a)
  | Throw e => Q h (Uncaught e)
  | Exit c => Q h (Exited c)
  | Vis ev k => forall x, wp_on keep Q (k x) (if keep _ ev then h ++ [Observed ev x] else h)
  end.

(** A property of the runs that return. *)
Definition when_returned {A} (P : list Obs -> A -> Prop) (h : list Obs) (o : Outcome A) :
    Prop :=
  match o with
  | Returned a => P h a
  | _ => True
  end.

Definition is_post_or_write (X : Type) (ev : Event X) : bool :=
  is_post ev || is_any_write ev.

(** The line that reports whether a balance moved as declared. *)
Definition verdict_text : string := "Change matched expected: ".

Definition is_balance_or_verdict (X : Type) (ev : Event X) : bool :=
  match ev with
  | RpcGetBalance _ _ => true
  | ConsoleLog (LStr text :: _) => String.eqb text verdict_text
  | _ => false
  end.



(** No path through [p] ends in [process.exit]. *)
Fixpoint no_exit {A} (p : Prog A) : Prop :=
  match p with
  | Exit _ => False
  | Vis _ k => forall x, no_exit (k x)
  | _ => True
  end.

(** On every path through [p] at most [n] requests are posted to the
    relay. *)
Fixpoint posts_at_most {A} (n : nat) (p : Prog A) : Prop :=
  match p with
  | Vis ev k =>
      if is_post ev
      then match n with
           | O => False
           | S m => forall x, posts_at_most m (k x)
           end
      else forall x, posts_at_most n (k x)
  | _ => True
  end.

(** No request for which [bad] holds is made on any path through [p]. *)
Definition never {A} (bad : forall X, Event X -> bool) (p : Prog A) : Prop :=
  always (fun _ X ev => bad X ev = false) p [].

(** The result of a call that did not throw. *)
Definition ok {A} (r : JsError + A) : option A :=
  match r with
  | inr a => Some a
  | inl _ => None
  end.

(** Writing to the file [path]. *)
Definition is_write (path : string) (X : Type) (ev : Event X) : bool :=
  match ev with
  | FsWriteFileSync p _ => String.eqb p path
  | _ => false
  end.


(** Requests to the ledger gateway go to the endpoint [rpc], and requests
    to a relay, if [relay] names one, to that address. *)
Definition talks_to (rpc : string) (relay : option string) (X : Type) (ev : Event X) : Prop :=
  match ev with
  | RpcGetBalance c _ | RpcGetLatestBlockhash c | RpcConfirmTransaction c _ _ _
  | RpcRequestAirdrop c _ _ => rpcEndpoint c = rpc
  | AxiosPost url _ => relay = Some url
  | _ => True
  end.


(** The JSON-RPC envelope of a request to the relay. *)
Definition jsonrpc_request (method : string) (payload : json) : json :=
  JObj [ ("jsonrpc", JStr "2.0");
         ("id", JNum (Number.of_Z 1));
         ("method", JStr method);
         ("params",
          JArr [ payload;
                 JObj [ ("skipPreflight", JBool true); ("encoding", JStr "base58") ] ]) ].

(** ** The scenario table of the specification

    Which legs a scenario marks stale, in the order the transactions are
    built (section 4.4 of the specification). *)
Definition spec_stale_legs (mode : string) : list bool :=
  if String.eqb mode "valid-single" then [false]
  else if String.eqb mode "invalid-single" then [true]
  else if String.eqb mode "valid-bundle" then [false; false]
  else if String.eqb mode "invalid-bundle-first" then [true; false]
  else if String.eqb mode "invalid-bundle-second" then [false; true]
  else [].

(** ** The harness and the setup step *)

(** Module-level constants read from the environment. *)
Record Globals : Type := {
  ATLAS_SERVICE_URL : option string;
  RPC_URL : option string
}.

(** The variables [runTest] declares before its first [switch] and
    updates inside it. *)
Record Locals : Type := {
  expectedSenderChange : Z;
  expectedRecipientChanges : list Z;
  transactions : list VersionedTransaction
}.

Definition test_modes : list string :=
  [ "valid-single"; "invalid-single"; "valid-bundle";
    "invalid-bundle-first"; "invalid-bundle-second" ].

Definition usage_text : string :=
  "Please specify a test mode:
valid-single  - Test sending a single valid transaction
invalid-single - Test sending a single stale transaction
valid-bundle   - Test sending a bundle of valid transactions
invalid-bundle-first - Test sending a bundle of stale transactions with first tx invalid
invalid-bundle-second - Test sending a bundle of stale transactions with second tx invalid
".

(** The literal written where a leg is to be rejected. *)
Definition stale_blockhash : string := "11111111111111111111111111111111".

(** [const txnFee = BigInt(5000)] *)
Definition txnFee : JsError + Z := BigInt (Number.of_Z 5000).

(** [arr[i] += amount] on an array of bigints; adding a bigint to the
    [undefined] read past the end throws. *)
Definition add_at (i : nat) (amount : Z) (arr : list Z) : Prog (list Z) :=
  match arr !! i with
  | Some v => Ret (<[ i := v + amount ]> arr)
  | None => Throw (TypeError "Cannot mix BigInt and other types, use explicit conversions")
  end.

(** [recipients[i].publicKey] *)
Definition recipient_key (recipients : list Keypair) (i : nat) : Prog PublicKey :=
  match recipients !! i with
  | Some r => Ret (publicKey r)
  | None => Throw (TypeError "Cannot read properties of undefined (reading 'publicKey')")
  end.

(** ** A sample world

    Stand-ins for the library functions and for the outside world, on
    which the statements below are exercised: a key derivation that
    returns its argument, transactions that sign and serialize to fixed
    values, and a ledger gateway and relay that answer every request. *)

Definition sample_getPublicKey (privateScalar : Uint8Array) : Uint8Array := privateScalar.
Definition sample_transfer_data (_ _ : PublicKey) (_ : Z) : Uint8Array := [].
Definition sample_tx_sign (tx : VersionedTransaction) (_ : list Keypair) :
    JsError + VersionedTransaction := inr tx.
Definition sample_tx_serialize (_ : VersionedTransaction) : JsError + Uint8Array := inr [].
Definition sample_bs58_encode (_ : Uint8Array) : string := "".
Definition sample_JSON_stringify (_ : json) : string := "".

Definition sample_scalar : Uint8Array := replicate 32 x01.

Definition sample_keypair : Keypair :=
  {| publicKey := sample_scalar; secretKey := sample_scalar ++ sample_scalar |}.

Definition sample_globals : Globals :=
  {| ATLAS_SERVICE_URL := Some "http://relay.test"; RPC_URL := Some "http://rpc.test" |}.

Definition sample_response : AxiosResponse :=
  {| status := Number.of_Z 200;
     config_data := "";
     response_data := JObj [ ("jsonrpc", JStr "2.0"); ("result", JArr []);
                             ("id", JNum (Number.of_Z 1)) ] |}.

Definition sample_oracle (X : Type) (ev : Event X) (w : unit) : X * unit :=
  match ev in Event X return X * unit with
  | FsExistsSync _ => (false, w)
  | FsReadFileSync path => (inl (SystemError "ENOENT" path), w)
  | FsWriteFileSync _ _ => (tt, w)
  | RandomPrivateKey => (sample_scalar, w)
  | ConsoleLog _ => (tt, w)
  | ConsoleError _ => (tt, w)
  | RpcGetBalance _ _ => (inr (Number.of_Z 1000000000), w)
  | RpcGetLatestBlockhash _ =>
      (inr {| blockhash := "live"; lastValidBlockHeight := Number.of_Z 100 |}, w)
  | RpcConfirmTransaction _ _ _ _ => (inr JNull, w)
  | RpcRequestAirdrop _ _ _ => (inr "airdrop", w)
  | AxiosPost _ _ => (inr sample_response, w)
  end.

(** The same world with a relay that rejects every request. *)
Definition sample_rejecting_oracle (X : Type) (ev : Event X) (w : unit) : X * unit :=
  match ev in Event X return X * unit with
  | AxiosPost _ _ => (inl (Rejection "Request failed with status code 400"), w)
  | ev => sample_oracle _ ev w
  end.


(** An environment without configuration, and one with both endpoints. *)
Definition sample_no_env (_ : string) : option string := None.

Definition sample_env (name : string) : option string :=
  if String.eqb name "ATLAS_SERVICE_URL" then Some "http://relay.test"
  else if String.eqb name "RPC_URL" then Some "http://rpc.test"
  else None.

(** No files, and a key file holding the sample keypair. *)
Definition sample_empty : State unit := {| files := ∅; world := tt |}.

Definition sample_with_key : State unit :=
  {| files := {[ "keypair.json" := "[" +:+ Uint8Array_toString (secretKey sample_keypair) +:+ "]" ]};
     world := tt |}.

Section Harness.

(** ed25519 public key of a private scalar. *)
Variable getPublicKey : Uint8Array -> Uint8Array.
(** [SystemProgram.transfer({fromPubkey, toPubkey, lamports}).data] *)
Variable transfer_data : PublicKey -> PublicKey -> Z -> Uint8Array.
(** [tx.sign(signers)], returning the transaction it has updated. *)
Variable tx_sign : VersionedTransaction -> list Keypair -> JsError + VersionedTransaction.
(** [tx.serialize()] *)
Variable tx_serialize : VersionedTransaction -> JsError + Uint8Array.
Variable bs58_encode : Uint8Array -> string.
Variable JSON_stringify : json -> string.

(** [Keypair.generate()]: a random 32-byte private scalar followed by its
    32-byte public key. *)
Definition Keypair_of_scalar (privateScalar : Uint8Array) : Keypair :=
  {| publicKey := getPublicKey privateScalar;
     secretKey := privateScalar ++ getPublicKey privateScalar |}.

Definition Keypair_generate : Prog Keypair :=
  privateScalar ← trigger RandomPrivateKey;
  Ret (Keypair_of_scalar privateScalar).

(** [Keypair.fromSecretKey(secretKey)] *)
Definition Keypair_fromSecretKey (secret : Uint8Array) : JsError + Keypair :=
  if negb (length secret =? 64)%nat then inl (Error "bad secret key size")
  else
    let public := drop 32 secret in
    let privateScalar := take 32 secret in
    let computedPublicKey := getPublicKey privateScalar in
    if forallb (fun ii => bool_decide (public !! ii = computedPublicKey !! ii)) (seq 0 32)
    then inr {| publicKey := public; secretKey := secret |}
    else inl (Error "provided secretKey is invalid").

Definition loadKeypair : Prog Keypair :=
  text ← await (FsReadFileSync "keypair.json");
  keypairData ← lift (JSON_parse text);
  lift (Keypair_fromSecretKey (Uint8Array_from keypairData)).

(** The [messageV0] that [createTestTransaction] assembles. *)
Definition messageV0 (fromKeypair : Keypair) (toPubkey : PublicKey)
    (amount : Z) (blockhash : string) : MessageV0 :=
  let instruction_data := transfer_data (publicKey fromKeypair) toPubkey amount in
  {| header :=
       {| numRequiredSignatures := 1;
          numReadonlySignedAccounts := 0;
          numReadonlyUnsignedAccounts := 1 |};
     staticAccountKeys :=
       [ publicKey fromKeypair; toPubkey; SystemProgram_programId ];
     recentBlockhash := blockhash;
     compiledInstructions :=
       [ {| programIdIndex := 2;
            accountKeyIndexes := [0; 1];
            data := instruction_data |} ];
     addressTableLookups := [] |}.

Definition createTestTransaction (fromKeypair : Keypair) (toPubkey : PublicKey)
    (amount : Z) (blockhash : string) : Prog VersionedTransaction :=
  Ret (VersionedTransaction_new (messageV0 fromKeypair toPubkey amount blockhash)).

(** The options object sent with every request. *)
Definition send_options : json :=
  JObj [ ("skipPreflight", JBool true); ("encoding", JStr "base58") ].

Definition sendTransaction (g : Globals) (tx : VersionedTransaction) : Prog json :=
  serialized ← lift (tx_serialize tx);
  let serializedTx := bs58_encode serialized in
  try_catch
    (response ← await (AxiosPost (template (ATLAS_SERVICE_URL g))
                   (JObj [ ("jsonrpc", JStr "2.0");
                           ("id", JNum (Number.of_Z 1));
                           ("method", JStr "sendTransaction");
                           ("params", JArr [ JStr serializedTx; send_options ]) ]));
     _ ← console_log [LStr "Transaction status:"; LNum (status response)];
     _ ← console_log [LStr "Request data:"; LStr (config_data response)];
     _ ← console_log [LStr "Response data:"; LVal (Some (response_data response))];
     Ret (response_data response))
    (fun err =>
       _ ← console_error [LStr "Error sending transaction:"; LErr err];
       Throw err).

Definition sendTransactionBundle (g : Globals) (txs : list VersionedTransaction) : Prog json :=
  serializedTxs ← map_async (fun _ tx => serialized ← lift (tx_serialize tx);
                                    Ret (bs58_encode serialized)) txs;
  try_catch
    (response ← await (AxiosPost (template (ATLAS_SERVICE_URL g))
                   (JObj [ ("jsonrpc", JStr "2.0");
                           ("id", JNum (Number.of_Z 1));
                           ("method", JStr "sendTransactionBundle");
                           ("params", JArr [ JArr (map JStr serializedTxs); send_options ]) ]));
     _ ← console_log [LStr "Transaction status:"; LNum (status response)];
     _ ← console_log [LStr "Request data:"; LStr (config_data response)];
     _ ← console_log [LStr "Response data:"; LVal (Some (response_data response))];
     Ret (response_data response))
    (fun err =>
       _ ← console_error [LStr "Error sending transaction bundle:"; LErr err];
       Throw err).

Definition checkBalance (connection : Connection) (pubkey : PublicKey) : Prog Z :=
  balance ← await (RpcGetBalance connection pubkey);
  lift (BigInt balance).

Definition confirmTransaction (connection : Connection) (signature : jsval) : Prog json :=
  latestBlockhash ← await (RpcGetLatestBlockhash connection);
  await (RpcConfirmTransaction connection signature latestBlockhash (Some "finalized")).

(** [const numRecipients = mode.includes('bundle') ? 2 : 1] *)
Definition numRecipients (mode : string) : nat :=
  if includes mode "bundle" then 2%nat else 1%nat.

(** [runTest], lines 198-203: the expectations start at zero and no
    transaction is built yet. *)
Definition declare_expected (numRecipients : nat) : Prog Locals :=
  zero ← lift (BigInt (Number.of_Z 0));
  fill ← lift (BigInt (Number.of_Z 0));
  Ret {| expectedSenderChange := zero;
         expectedRecipientChanges := replicate numRecipients fill;
         transactions := [] |}.

(** [runTest], lines 207-306: the first [switch (mode)]. A mode that
    matches no [case] leaves the variables as they are. *)
Definition scenario_switch (mode : string) (keypair : Keypair)
    (recipients : list Keypair) (recentBlockhash : string) (txnFee : Z)
    (st : Locals) : Prog Locals :=
  if String.eqb mode "valid-single" then
    amount ← lift (BigInt (Number.mul (Number.decimal 1 2) LAMPORTS_PER_SOL));
    let sender := expectedSenderChange st - (amount + txnFee) in
    changes ← add_at 0 amount (expectedRecipientChanges st);
    to ← recipient_key recipients 0;
    tx ← createTestTransaction keypair to amount recentBlockhash;
    Ret {| expectedSenderChange := sender;
           expectedRecipientChanges := changes;
           transactions := [tx] |}
  else if String.eqb mode "invalid-single" then
    amount ← lift (BigInt (Number.mul LAMPORTS_PER_SOL (Number.decimal 3 2)));
    let sender := expectedSenderChange st - (amount + txnFee) in
    changes ← add_at 0 amount (expectedRecipientChanges st);
    to ← recipient_key recipients 0;
    tx ← createTestTransaction keypair to amount stale_blockhash;
    Ret {| expectedSenderChange := sender;
           expectedRecipientChanges := changes;
           transactions := [tx] |}
  else if String.eqb mode "valid-bundle" then
    amount1 ← lift (BigInt (Number.mul LAMPORTS_PER_SOL (Number.decimal 1 2)));
    amount2 ← lift (BigInt (Number.mul LAMPORTS_PER_SOL (Number.decimal 2 2)));
    let sender := expectedSenderChange st - (amount1 + amount2 + txnFee * 2) in
    changes ← add_at 0 amount1 (expectedRecipientChanges st);
    changes ← add_at 1 amount2 changes;
    to1 ← recipient_key recipients 0;
    tx1 ← createTestTransaction keypair to1 amount1 recentBlockhash;
    to2 ← recipient_key recipients 1;
    tx2 ← createTestTransaction keypair to2 amount2 recentBlockhash;
    Ret {| expectedSenderChange := sender;
           expectedRecipientChanges := changes;
           transactions := [tx1; tx2] |}
  else if String.eqb mode "invalid-bundle-first" then
    amount1 ← lift (BigInt (Number.mul LAMPORTS_PER_SOL (Number.decimal 1 2)));
    amount2 ← lift (BigInt (Number.mul LAMPORTS_PER_SOL (Number.decimal 2 2)));
    let sender := expectedSenderChange st - (amount1 + amount2 + txnFee * 2) in
    changes ← add_at 0 amount1 (expectedRecipientChanges st);
    changes ← add_at 1 amount2 changes;
    to1 ← recipient_key recipients 0;
    tx1 ← createTestTransaction keypair to1 amount1 stale_blockhash;
    to2 ← recipient_key recipients 1;
    tx2 ← createTestTransaction keypair to2 amount2 recentBlockhash;
    Ret {| expectedSenderChange := sender;
           expectedRecipientChanges := changes;
           transactions := [tx1; tx2] |}
  else if String.eqb mode "invalid-bundle-second" then
    amount1 ← lift (BigInt (Number.mul LAMPORTS_PER_SOL (Number.decimal 1 2)));
    amount2 ← lift (BigInt (Number.mul LAMPORTS_PER_SOL (Number.decimal 2 2)));
    let sender := expectedSenderChange st - (amount1 + amount2 + txnFee * 2) in
    changes ← add_at 0 amount1 (expectedRecipientChanges st);
    changes ← add_at 1 amount2 changes;
    to1 ← recipient_key recipients 0;
    tx1 ← createTestTransaction keypair to1 amount1 recentBlockhash;
    to2 ← recipient_key recipients 1;
    tx2 ← createTestTransaction keypair to2 amount2 stale_blockhash;
    Ret {| expectedSenderChange := sender;
           expectedRecipientChanges := changes;
           transactions := [tx1; tx2] |}
  else Ret st.

(** What [runTest] has declared and built when it leaves the first
    [switch]: lines 198-306, as a function of the reference point that
    the request of line 204 returned. *)
Definition runTest_scenario (mode : string) (keypair : Keypair)
    (recipients : list Keypair) (recentBlockhash : string) : Prog Locals :=
  st ← declare_expected (numRecipients mode);
  fee ← lift txnFee;
  scenario_switch mode keypair recipients recentBlockhash fee st.

(** [transactions.forEach((tx) => tx.sign([keypair]))] *)
Definition sign_all (keypair : Keypair) (txs : list VersionedTransaction) :
    Prog (list VersionedTransaction) :=
  map_async (fun _ tx => lift (tx_sign tx [keypair])) txs.

(** [Promise.all(result.map((sig) => confirmTransaction(connection, sig)))];
    the confirmations are awaited one after the other. *)
Definition confirm_all (connection : Connection) (result : jsval) : Prog unit :=
  sigs ← lift (as_array result);
  _ ← map_async (fun _ sig => confirmTransaction connection (Some sig)) sigs;
  Ret tt.

(** [runTest], lines 312-363: the second [switch (mode)]. *)
Definition submit_switch (g : Globals) (mode : string) (connection : Connection)
    (txs : list VersionedTransaction) : Prog unit :=
  if String.eqb mode "valid-single" || String.eqb mode "invalid-single" then
    _ ← console_log [LStr "
Testing sendTransaction with ";
                      LStr (if String.eqb mode "valid-single" then "valid" else "stale");
                      LStr " transaction..."];
    tx ← match txs !! 0%nat with
         | Some tx => Ret tx
         | None => Throw (TypeError "Cannot read properties of undefined (reading 'serialize')")
         end;
    response ← sendTransaction g tx;
    _ ← console_log [LStr "Waiting for transaction confirmation..."];
    signature ← lift (get_prop (Some response) "result");
    _ ← confirmTransaction connection signature;
    Ret tt
  else if String.eqb mode "valid-bundle" then
    _ ← console_log [LStr "
Testing sendTransactionBundle with valid transactions..."];
    bundleResponse ← sendTransactionBundle g txs;
    _ ← console_log [LStr "Waiting for transaction bundle confirmation..."];
    result ← lift (get_prop (Some bundleResponse) "result");
    confirm_all connection result
  else if String.eqb mode "invalid-bundle-first" then
    _ ← console_log [LStr "
Testing sendTransactionBundle with first transaction invalid bundle..."];
    bundleResponse ← sendTransactionBundle g txs;
    result ← lift (get_prop (Some bundleResponse) "result");
    empty ← lift (length_is result 0);
    console_log [LStr "bundleResponse.result.length should be 0: "; LBool empty]
  else if String.eqb mode "invalid-bundle-second" then
    _ ← console_log [LStr "
Testing sendTransactionBundle with second transaction invalid bundle..."];
    bundleResponse ← sendTransactionBundle g txs;
    result ← lift (get_prop (Some bundleResponse) "result");
    one ← lift (length_is result 1);
    _ ← console_log [LStr "bundleResponse.result.length should be 1: "; LBool one];
    _ ← console_log [LStr "Waiting for transaction bundle confirmation..."];
    result ← lift (get_prop (Some bundleResponse) "result");
    confirm_all connection result
  else Ret tt.

(** The per-recipient report of [runTest], lines 380-402. *)
Definition report_recipient (connection : Connection)
    (recipientInitialBalances expected : list Z) (i : nat) (recipient : Keypair) :
    Prog unit :=
  finalBalance ← checkBalance connection (publicKey recipient);
  actualChange ← match recipientInitialBalances !! i with
                 | Some initial => Ret (finalBalance - initial)
                 | None => Throw (TypeError "Cannot mix BigInt and other types, use explicit conversions")
                 end;
  _ ← console_log [LStr "Recipient "; LIndex (i + 1); LStr " final balance: "; LSol finalBalance];
  _ ← console_log [LStr "Recipient "; LIndex (i + 1); LStr " balance change: "; LSol actualChange];
  _ ← console_log [LStr "Expected recipient "; LIndex (i + 1); LStr " change: ";
                    match expected !! i with Some e => LSol e | None => LStr "NaN SOL" end];
  console_log [LStr "Change matched expected: ";
               LBool (match expected !! i with
                      | Some e => actualChange =? e
                      | None => false
                      end)].

(** The document written to [test-transactions.json]. *)
Definition run_record (mode : string) (serialized : list Uint8Array) : json :=
  JObj [ ("transactions",
          JArr (map (fun bytes =>
                       JArr (map (fun b => JNum (Number.of_Z (Z.of_N (Byte.to_N b)))) bytes))
                    serialized));
         ("mode", JStr mode) ].

Definition runTest (g : Globals) (mode : string) : Prog unit :=
  keypair ← loadKeypair;
  _ ← console_log [LStr "Loaded keypair w/ public key:"; LKey (publicKey keypair)];
  recipients ← map_async (fun _ _ => Keypair_generate) (replicate (numRecipients mode) tt);
  _ ← console_log [LStr "Created recipients with public keys:"];
  _ ← map_async (fun i recipient =>
              console_log [LStr "Recipient "; LIndex (i + 1); LStr ":"; LKey (publicKey recipient)])
           recipients;
  connection ← lift (Connection_new (template (RPC_URL g)));
  senderInitialBalance ← checkBalance connection (publicKey keypair);
  _ ← console_log [LStr "Sender initial balance: "; LSol senderInitialBalance];
  recipientInitialBalances ←
    map_async (fun i recipient =>
            balance ← checkBalance connection (publicKey recipient);
            _ ← console_log [LStr "Recipient "; LIndex (i + 1); LStr " initial balance: "; LSol balance];
            Ret balance)
         recipients;
  st ← declare_expected (numRecipients mode);
  latest ← await (RpcGetLatestBlockhash connection);
  let recentBlockhash := blockhash latest in
  fee ← lift txnFee;
  st ← scenario_switch mode keypair recipients recentBlockhash fee st;
  signed ← sign_all keypair (transactions st);
  _ ← submit_switch g mode connection signed;
  senderFinalBalance ← checkBalance connection (publicKey keypair);
  let actualSenderChange := senderFinalBalance - senderInitialBalance in
  _ ← console_log [LStr "Sender final balance: "; LSol senderFinalBalance];
  _ ← console_log [LStr "Sender balance change: "; LSol actualSenderChange];
  _ ← console_log [LStr "Expected sender change (including tnsfr fee): ";
                    LSol (expectedSenderChange st)];
  _ ← console_log [LStr "Change matched expected: ";
                    LBool (actualSenderChange =? expectedSenderChange st)];
  _ ← map_async (report_recipient connection recipientInitialBalances (expectedRecipientChanges st))
           recipients;
  serialized ← map_async (fun _ tx => lift (tx_serialize tx)) signed;
  _ ← trigger (FsWriteFileSync "test-transactions.json"
                 (JSON_stringify (run_record mode serialized)));
  console_log [LStr "
Saved transactions to test-transactions.json"].

(** [main], given [process.argv[2]]. *)
Definition main (g : Globals) (arg : option string) : Prog unit :=
  if falsy arg || negb (existsb (String.eqb (template arg)) test_modes) then
    _ ← console_error [LStr usage_text];
    Exit 1
  else runTest g (template arg).

(** The module [build-transactions.ts] from its first statement: the
    configuration check, then [main().catch(console.error)]. [env] is
    [process.env] once [dotenv.config()] has run. *)
Definition build_transactions (env : string -> option string) (arg : option string) :
    Prog unit :=
  let g := {| ATLAS_SERVICE_URL := env "ATLAS_SERVICE_URL"; RPC_URL := env "RPC_URL" |} in
  if falsy (ATLAS_SERVICE_URL g) || falsy (RPC_URL g) then
    Throw (Error "ATLAS_SERVICE_URL and RPC_URL must be set")
  else try_catch (main g arg) (fun err => console_error [LErr err]).

(** [setupKeypair] of [setup-keypair.ts]. *)
Definition setupKeypair (PUBLIC_DEVNET_RPC : option string) : Prog unit :=
  if falsy PUBLIC_DEVNET_RPC then console_error [LStr "RPC_URL is not set"]
  else
    present ← trigger (FsExistsSync "keypair.json");
    keypair ←
      (if present : bool then
         _ ← console_log [LStr "Keypair already exists. Loading existing keypair..."];
         text ← await (FsReadFileSync "keypair.json");
         keypairData ← lift (JSON_parse text);
         keypair ← lift (Keypair_fromSecretKey (Uint8Array_from keypairData));
         _ ← console_log [LStr "Loaded public key:"; LKey (publicKey keypair)];
         Ret keypair
       else
         keypair ← Keypair_generate;
         _ ← trigger (FsWriteFileSync "keypair.json"
                        ("[" +:+ Buffer_toString (Buffer_from (Uint8Array_toString (secretKey keypair)))
                             +:+ "]"));
         _ ← trigger (FsWriteFileSync "public-key.txt" (bs58_encode (publicKey keypair)));
         _ ← console_log [LStr "New keypair generated and saved"];
         _ ← console_log [LStr "Public key:"; LKey (publicKey keypair)];
         Ret keypair);
    devnetConnection ← lift (Connection_new (template PUBLIC_DEVNET_RPC));
    balance ← await (RpcGetBalance devnetConnection (publicKey keypair));
    _ ← console_log [LStr "Balance before airdrop:"; LNum balance];
    try_catch
      (airdropSignature ← await (RpcRequestAirdrop devnetConnection (publicKey keypair)
                                   (Number.mul LAMPORTS_PER_SOL (Number.of_Z 2)));
       latestBlockhash ← await (RpcGetLatestBlockhash devnetConnection);
       _ ← await (RpcConfirmTransaction devnetConnection (Some (JStr airdropSignature))
                    latestBlockhash None);
       balanceAfter ← await (RpcGetBalance devnetConnection (publicKey keypair));
       console_log [LStr "Balance after:"; LNum balanceAfter])
      (fun error => console_error [LStr "Error requesting airdrop:"; LErr error]).

(** The module [setup-keypair.ts]: [setupKeypair().catch(console.error)]. *)
Definition setup_keypair (env : string -> option string) : Prog unit :=
  try_catch (setupKeypair (env "PUBLIC_DEVNET_RPC"))
            (fun err => console_error [LErr err]).

(** ** Running a program

    Every request that is not to the file system is answered by
    [oracle], an arbitrary function of the request and of the state of
    the outside world. *)

Variable World : Type.
Variable oracle : forall X, Event X -> World -> X * World.

Definition handle {X} (ev : Event X) (s : State World) : X * State World :=
  match ev in Event X return X * State World with
  | FsExistsSync path => (bool_decide (is_Some (files s !! path)), s)
  | FsReadFileSync path =>
      (match files s !! path with
       | Some text => inr text
       | None => inl (SystemError "ENOENT" path)
       end, s)
  | FsWriteFileSync path content =>
      (tt, {| files := <[ path := content ]> (files s); world := world s |})
  | ev =>
      let (answer, w) := oracle _ ev (world s) in
      (answer, {| files := files s; world := w |})
  end.

Fixpoint run {A} (p : Prog A) (s : State World) : list Obs * State World * Outcome A :=
  match p with
  | Ret a => ([], s, Returned a)
  | Throw e => ([], s, Uncaught e)
  | Exit c => ([], s, Exited c)
  | Vis ev k =>
      let (answer, s1) := handle ev s in
      let '(obs, s2, out) := run (k answer) s1 in
      (Observed ev answer :: obs, s2, out)
  end.

Definition trace_of {A} (r : list Obs * State World * Outcome A) : list Obs := r.1.1.
Definition state_of {A} (r : list Obs * State World * Outcome A) : State World := r.1.2.
Definition outcome_of {A} (r : list Obs * State World * Outcome A) : Outcome A := r.2.

(** What is to hold of a request posted to the relay at a point where the
    observations so far are [h]: one reference point has been fetched, and
    the request carries the transactions that the first [switch] builds
    from it, signed and serialized. *)
Definition submits_scenario (g : Globals) (mode : string) (h : list Obs)
    (url : string) (body : json) : Prop :=
  exists keypair recipients live st signed payloads,
    length (filter obs_is_fetch h) = 1%nat /\
    fetched h = [live] /\
    length recipients = numRecipients mode /\
    runTest_scenario mode keypair recipients live = Ret st /\
    map (fun tx => recentBlockhash (message tx)) (transactions st) =
      map (fun stale : bool => if stale then stale_blockhash else live)
          (spec_stale_legs mode) /\
    Forall2 (fun tx stx => tx_sign tx [keypair] = inr stx) (transactions st) signed /\
    Forall2 (fun stx bytes => tx_serialize stx = inr bytes) signed payloads /\
    url = template (ATLAS_SERVICE_URL g) /\
    ((exists bytes, payloads = [bytes] /\
        body = jsonrpc_request "sendTransaction" (JStr (bs58_encode bytes))) \/
     body = jsonrpc_request "sendTransactionBundle"
              (JArr (map (fun bytes => JStr (bs58_encode bytes)) payloads))).

Definition post_submits_scenario (g : Globals) (mode : string) (h : list Obs)
    (X : Type) (ev : Event X) : Prop :=
  match ev with
  | AxiosPost url body => submits_scenario g mode h url body
  | _ => True
  end.

(** What is to hold of the observations [h] of a run of [runTest] that
    returns: one request was posted and one file written, and the file
    records the serialized transactions that the request carried. *)
Definition records_submission (g : Globals) (mode : string) (h : list Obs) : Prop :=
  exists payloads body,
    posts h = [(template (ATLAS_SERVICE_URL g), body)] /\
    written h = [("test-transactions.json", JSON_stringify (run_record mode payloads))] /\
    length payloads = numRecipients mode /\
    if includes mode "bundle"
    then body = jsonrpc_request "sendTransactionBundle"
                  (JArr (map (fun bytes => JStr (bs58_encode bytes)) payloads))
    else exists bytes, payloads = [bytes] /\
           body = jsonrpc_request "sendTransaction" (JStr (bs58_encode bytes)).


(** How a call of a relay operation ends, [failure] being the text it
    prints before an error of the request. *)
Definition relay_call_ends (failure : string) (h : list Obs) (o : Outcome json) : Prop :=
  match o with
  | Returned data =>
      exists url body response,
        data = response_data response /\
        h = [ Observed (AxiosPost url body) (inr response);
              Observed (ConsoleLog [LStr "Transaction status:"; LNum (status response)]) tt;
              Observed (ConsoleLog [LStr "Request data:"; LStr (config_data response)]) tt;
              Observed (ConsoleLog [LStr "Response data:";
                                    LVal (Some (response_data response))]) tt ]
  | Uncaught e =>
      h = [] \/
      exists url body,
        h = [ Observed (AxiosPost url body) (inl e);
              Observed (ConsoleError [LStr failure; LErr e]) tt ]
  | Exited _ => False
  end.

(** ** Numbers of the scenarios *)

Lemma decimal_0_01 : Number.decimal 1 2 = S754_finite false 5764607523034235 (-59).
Proof. vm_compute. reflexivity. Qed.

Lemma decimal_0_02 : Number.decimal 2 2 = S754_finite false 5764607523034235 (-58).
Proof. vm_compute. reflexivity. Qed.

Lemma decimal_0_03 : Number.decimal 3 2 = S754_finite false 8646911284551352 (-58).
Proof. vm_compute. reflexivity. Qed.

Lemma amount_0_01_left :
  BigInt (Number.mul (Number.decimal 1 2) LAMPORTS_PER_SOL) = inr 10000000.
Proof. vm_compute. reflexivity. Qed.

Lemma amount_0_01 :
  BigInt (Number.mul LAMPORTS_PER_SOL (Number.decimal 1 2)) = inr 10000000.
Proof. vm_compute. reflexivity. Qed.

Lemma amount_0_02 :
  BigInt (Number.mul LAMPORTS_PER_SOL (Number.decimal 2 2)) = inr 20000000.
Proof. vm_compute. reflexivity. Qed.

Lemma amount_0_03 :
  BigInt (Number.mul LAMPORTS_PER_SOL (Number.decimal 3 2)) = inr 30000000.
Proof. vm_compute. reflexivity. Qed.

Lemma amount_0_02_left :
  BigInt (Number.mul (Number.decimal 2 2) LAMPORTS_PER_SOL) = inr 20000000.
Proof. vm_compute. reflexivity. Qed.

Lemma amount_0_03_left :
  BigInt (Number.mul (Number.decimal 3 2) LAMPORTS_PER_SOL) = inr 30000000.
Proof. vm_compute. reflexivity. Qed.

(** A number with a fraction is refused, an integral one converted. *)
Example BigInt_of_a_fraction :
  BigInt (Number.decimal 1 2) =
  inl (RangeError "The number cannot be converted to a BigInt because it is not an integer").
Proof. vm_compute. reflexivity. Qed.

Example BigInt_of_an_integer : BigInt (Number.of_Z 42) = inr 42.
Proof. vm_compute. reflexivity. Qed.

Lemma txnFee_value : txnFee = inr 5000.
Proof. vm_compute. reflexivity. Qed.

Lemma declare_expected_value n :
  declare_expected n =
  Ret {| expectedSenderChange := 0;
         expectedRecipientChanges := replicate n 0;
         transactions := [] |}.
Proof. reflexivity. Qed.

(** ** The first [switch], case by case *)

Ltac run_scenario :=
  unfold runTest_scenario, scenario_switch, numRecipients;
  rewrite ?declare_expected_value, ?txnFee_value;
  cbn [includes String.index String.eqb Ascii.eqb Bool.eqb String.prefix
       mbind Prog_bind bind lift];
  rewrite ?amount_0_01_left, ?amount_0_01, ?amount_0_02, ?amount_0_03;
  reflexivity.

Lemma scenario_valid_single keypair r recentBlockhash :
  runTest_scenario "valid-single" keypair [r] recentBlockhash =
  Ret {| expectedSenderChange := - (10000000 + 5000);
         expectedRecipientChanges := [10000000];
         transactions :=
           [ VersionedTransaction_new
               (messageV0 keypair (publicKey r) 10000000 recentBlockhash) ] |}.
Proof. run_scenario. Qed.

Lemma scenario_invalid_single keypair r recentBlockhash :
  runTest_scenario "invalid-single" keypair [r] recentBlockhash =
  Ret {| expectedSenderChange := - (30000000 + 5000);
         expectedRecipientChanges := [30000000];
         transactions :=
           [ VersionedTransaction_new
               (messageV0 keypair (publicKey r) 30000000 stale_blockhash) ] |}.
Proof. run_scenario. Qed.

Lemma scenario_valid_bundle keypair r1 r2 recentBlockhash :
  runTest_scenario "valid-bundle" keypair [r1; r2] recentBlockhash =
  Ret {| expectedSenderChange := - (10000000 + 20000000 + 5000 * 2);
         expectedRecipientChanges := [10000000; 20000000];
         transactions :=
           [ VersionedTransaction_new
               (messageV0 keypair (publicKey r1) 10000000 recentBlockhash);
             VersionedTransaction_new
               (messageV0 keypair (publicKey r2) 20000000 recentBlockhash) ] |}.
Proof. run_scenario. Qed.

Lemma scenario_invalid_bundle_first keypair r1 r2 recentBlockhash :
  runTest_scenario "invalid-bundle-first" keypair [r1; r2] recentBlockhash =
  Ret {| expectedSenderChange := - (10000000 + 20000000 + 5000 * 2);
         expectedRecipientChanges := [10000000; 20000000];
         transactions :=
           [ VersionedTransaction_new
               (messageV0 keypair (publicKey r1) 10000000 stale_blockhash);
             VersionedTransaction_new
               (messageV0 keypair (publicKey r2) 20000000 recentBlockhash) ] |}.
Proof. run_scenario. Qed.

Lemma scenario_invalid_bundle_second keypair r1 r2 recentBlockhash :
  runTest_scenario "invalid-bundle-second" keypair [r1; r2] recentBlockhash =
  Ret {| expectedSenderChange := - (10000000 + 20000000 + 5000 * 2);
         expectedRecipientChanges := [10000000; 20000000];
         transactions :=
           [ VersionedTransaction_new
               (messageV0 keypair (publicKey r1) 10000000 recentBlockhash);
             VersionedTransaction_new
               (messageV0 keypair (publicKey r2) 20000000 stale_blockhash) ] |}.
Proof. run_scenario. Qed.

(** The five modes, with as many recipients as [runTest] generates. *)
Ltac each_mode Hmode Hlen recipients :=
  cbn [test_modes In] in Hmode;
  destruct Hmode as [<- | [<- | [<- | [<- | [<- | []]]]]];
  vm_compute in Hlen;
  destruct recipients as [| ?r1 [| ?r2 [| ?r3 ?rest]]]; try discriminate Hlen;
  clear Hlen.

(** ** The claims about the scenarios *)

(** C1 (the code departs from it). For invalid-bundle-second the claim
    expects a sender delta of minus (first amount plus one fee) and a
    zero delta for the second recipient. The code declares the deltas of
    two settled legs: minus (10000000 + 20000000 + 2 * 5000) for the
    sender and plus 20000000 for the second recipient. *)
Theorem C1_invalid_bundle_second_declares_both_legs keypair r1 r2 recentBlockhash :
  exists st,
    runTest_scenario "invalid-bundle-second" keypair [r1; r2] recentBlockhash = Ret st /\
    expectedSenderChange st = - (10000000 + 20000000 + 2 * 5000) /\
    expectedRecipientChanges st = [10000000; 20000000] /\
    expectedSenderChange st <> - (10000000 + 5000) /\
    expectedRecipientChanges st !! 1%nat <> Some 0.
Proof.
  eexists. split; [apply scenario_invalid_bundle_second |].
  cbn [expectedSenderChange expectedRecipientChanges].
  repeat split; try reflexivity; [lia | discriminate].
Qed.

(** C2 (the code departs from it). For invalid-single and
    invalid-bundle-first the claim expects zero deltas on every account.
    The code declares minus (30000000 + 5000) and plus 30000000 for
    invalid-single, and the deltas of two settled legs for
    invalid-bundle-first. *)
Theorem C2_rejected_scenarios_declare_nonzero keypair r1 r2 recentBlockhash :
  (exists st,
     runTest_scenario "invalid-single" keypair [r1] recentBlockhash = Ret st /\
     expectedSenderChange st = - (30000000 + 5000) /\
     expectedRecipientChanges st = [30000000] /\
     expectedSenderChange st <> 0 /\
     expectedRecipientChanges st <> [0]) /\
  (exists st,
     runTest_scenario "invalid-bundle-first" keypair [r1; r2] recentBlockhash = Ret st /\
     expectedSenderChange st = - (10000000 + 20000000 + 2 * 5000) /\
     expectedRecipientChanges st = [10000000; 20000000] /\
     expectedSenderChange st <> 0 /\
     expectedRecipientChanges st <> [0; 0]).
Proof.
  split; eexists.
  - split; [apply scenario_invalid_single |].
    cbn [expectedSenderChange expectedRecipientChanges].
    repeat split; try reflexivity; discriminate.
  - split; [apply scenario_invalid_bundle_first |].
    cbn [expectedSenderChange expectedRecipientChanges].
    repeat split; try reflexivity; discriminate.
Qed.

(** C3 (as amended). In every scenario the first [switch] completes
    without a throw, and every amount passed to the builder is a
    non-negative integer: the binary64 product of [LAMPORTS_PER_SOL] and
    the literal 0.01, 0.02 or 0.03 (in either order of the operands),
    which [BigInt] converts without failure to exactly 10000000, 20000000
    or 30000000. The same amounts are the expected recipient deltas. *)
Theorem C3_amounts_are_exact_integers mode keypair recipients recentBlockhash :
  In mode test_modes ->
  length recipients = numRecipients mode ->
  exists st (legs : list (PublicKey * Z * string)),
    runTest_scenario mode keypair recipients recentBlockhash = Ret st /\
    transactions st =
      map (fun '(to, amount, h) => VersionedTransaction_new (messageV0 keypair to amount h)) legs /\
    expectedRecipientChanges st = map (fun '(_, amount, _) => amount) legs /\
    Forall (fun '(_, amount, _) =>
              0 <= amount /\
              exists n, In n [1; 2; 3] /\
                BigInt (Number.mul LAMPORTS_PER_SOL (Number.decimal n 2)) = inr amount /\
                BigInt (Number.mul (Number.decimal n 2) LAMPORTS_PER_SOL) = inr amount /\
                amount = n * 10000000) legs.
Proof.
  intros Hmode Hlen. each_mode Hmode Hlen recipients.
  - eexists. exists [(publicKey r1, 10000000, recentBlockhash)].
    split; [apply scenario_valid_single |]. repeat split.
    repeat constructor; [lia |]. exists 1. cbn [In]. split; [tauto |].
    split; [apply amount_0_01 |]. split; [apply amount_0_01_left | reflexivity].
  - eexists. exists [(publicKey r1, 30000000, stale_blockhash)].
    split; [apply scenario_invalid_single |]. repeat split.
    repeat constructor; [lia |]. exists 3. cbn [In]. split; [tauto |].
    split; [apply amount_0_03 |]. split; [apply amount_0_03_left | reflexivity].
  - eexists. exists [(publicKey r1, 10000000, recentBlockhash);
                     (publicKey r2, 20000000, recentBlockhash)].
    split; [apply scenario_valid_bundle |]. repeat split.
    repeat constructor; try lia.
    + exists 1. cbn [In]. split; [tauto |]. split; [apply amount_0_01 |]. split; [apply amount_0_01_left | reflexivity].
    + exists 2. cbn [In]. split; [tauto |]. split; [apply amount_0_02 |]. split; [apply amount_0_02_left | reflexivity].
  - eexists. exists [(publicKey r1, 10000000, stale_blockhash);
                     (publicKey r2, 20000000, recentBlockhash)].
    split; [apply scenario_invalid_bundle_first |]. repeat split.
    repeat constructor; try lia.
    + exists 1. cbn [In]. split; [tauto |]. split; [apply amount_0_01 |]. split; [apply amount_0_01_left | reflexivity].
    + exists 2. cbn [In]. split; [tauto |]. split; [apply amount_0_02 |]. split; [apply amount_0_02_left | reflexivity].
  - eexists. exists [(publicKey r1, 10000000, recentBlockhash);
                     (publicKey r2, 20000000, stale_blockhash)].
    split; [apply scenario_invalid_bundle_second |]. repeat split.
    repeat constructor; try lia.
    + exists 1. cbn [In]. split; [tauto |]. split; [apply amount_0_01 |]. split; [apply amount_0_01_left | reflexivity].
    + exists 2. cbn [In]. split; [tauto |]. split; [apply amount_0_02 |]. split; [apply amount_0_02_left | reflexivity].
Qed.


(** C10. The fee is the one constant 5000. In every scenario the
    expected sender delta is minus the sum, over the transactions built,
    of the amount of the transaction plus 5000; the amounts are those
    credited to the recipients. *)
Theorem C10_fee_charged_per_built_transaction mode keypair recipients recentBlockhash :
  In mode test_modes ->
  length recipients = numRecipients mode ->
  txnFee = inr 5000 /\
  exists st (legs : list (PublicKey * Z * string)),
    runTest_scenario mode keypair recipients recentBlockhash = Ret st /\
    transactions st =
      map (fun '(to, amount, h) => VersionedTransaction_new (messageV0 keypair to amount h)) legs /\
    expectedRecipientChanges st = map (fun '(_, amount, _) => amount) legs /\
    expectedSenderChange st =
      - foldr (fun '(_, amount, _) total => (amount + 5000) + total) 0 legs.
Proof.
  intros Hmode Hlen. split; [apply txnFee_value |].
  each_mode Hmode Hlen recipients.
  - eexists. exists [(publicKey r1, 10000000, recentBlockhash)].
    split; [apply scenario_valid_single |]. repeat split.
  - eexists. exists [(publicKey r1, 30000000, stale_blockhash)].
    split; [apply scenario_invalid_single |]. repeat split.
  - eexists. exists [(publicKey r1, 10000000, recentBlockhash);
                     (publicKey r2, 20000000, recentBlockhash)].
    split; [apply scenario_valid_bundle |]. repeat split.
  - eexists. exists [(publicKey r1, 10000000, stale_blockhash);
                     (publicKey r2, 20000000, recentBlockhash)].
    split; [apply scenario_invalid_bundle_first |]. repeat split.
  - eexists. exists [(publicKey r1, 10000000, recentBlockhash);
                     (publicKey r2, 20000000, stale_blockhash)].
    split; [apply scenario_invalid_bundle_second |]. repeat split.
Qed.

(** ** Runs *)

Ltac answer_all :=
  repeat match goal with
         | |- context [oracle ?X ?ev ?w] =>
             let a := fresh "answer" in
             let w' := fresh "w" in
             destruct (oracle X ev w) as [a w'] eqn:?
         end.

Lemma always_run {A} inv (p : Prog A) h s pre o post :
  always inv p h ->
  trace_of (run p s) = pre ++ o :: post ->
  match o with Observed ev _ => inv (h ++ pre) _ ev end.
Proof.
  revert h s pre. induction p as [a | e | c | X ev k IH]; intros h s pre Hp Htr;
    try (destruct pre; discriminate Htr).
  destruct Hp as [Hev Hk]. unfold trace_of in *. cbn [run] in Htr.
  destruct (handle ev s) as [answer s1].
  specialize (IH answer (h ++ [Observed ev answer]) s1).
  destruct (run (k answer) s1) as [[obs s2] out]. cbn in Htr, IH.
  destruct pre as [| o' pre].
  - cbn in Htr. injection Htr as <- _. rewrite app_nil_r. exact Hev.
  - cbn in Htr. injection Htr as <- Hobs.
    specialize (IH pre (Hk answer) Hobs).
    rewrite <- app_assoc in IH. exact IH.
Qed.

Lemma always_weaken {A} (inv inv' : list Obs -> forall X, Event X -> Prop) (p : Prog A) h :
  (forall h X ev, inv h X ev -> inv' h X ev) ->
  always inv p h -> always inv' p h.
Proof.
  intros Himp. revert h. induction p as [a | e | c | X ev k IH]; intros h Hp; try exact I.
  destruct Hp as [Hev Hk]. split; [auto |]. intros x. apply IH, Hk.
Qed.

Lemma always_shift {A} (good : forall X, Event X -> Prop) (p : Prog A) h h' :
  always (fun _ => good) p h -> always (fun _ => good) p h'.
Proof.
  revert h h'. induction p as [a | e | c | X ev k IH]; intros h h' Hp; try exact I.
  destruct Hp as [Hev Hk]. split; [exact Hev |]. intros x. eapply IH, Hk.
Qed.

Lemma always_bind {A B} (good : forall X, Event X -> Prop) (p : Prog A) (f : A -> Prog B) h :
  always (fun _ => good) p h ->
  (forall a, always (fun _ => good) (f a) h) ->
  always (fun _ => good) (bind p f) h.
Proof.
  intros Hp Hf. revert h Hp Hf.
  induction p as [a | e | c | X ev k IH]; intros h Hp Hf; cbn [bind always]; auto.
  destruct Hp as [Hev Hk]. split; [exact Hev |]. intros x.
  apply IH; [apply Hk |]. intros a. eapply always_shift, Hf.
Qed.

Lemma always_try_catch {A} (good : forall X, Event X -> Prop) (p : Prog A) handler h :
  always (fun _ => good) p h ->
  (forall e, always (fun _ => good) (handler e) h) ->
  always (fun _ => good) (try_catch p handler) h.
Proof.
  intros Hp Hh. revert h Hp Hh.
  induction p as [a | e | c | X ev k IH]; intros h Hp Hh; cbn [try_catch always]; auto.
  destruct Hp as [Hev Hk]. split; [exact Hev |]. intros x.
  apply IH; [apply Hk |]. intros e. eapply always_shift, Hh.
Qed.

Lemma always_map_async {A B} (good : forall X, Event X -> Prop)
    (f : nat -> A -> Prog B) xs i h :
  (forall j x, always (fun _ => good) (f j x) h) ->
  always (fun _ => good) (map_async_from f i xs) h.
Proof.
  intros Hf. revert i. induction xs as [| x xs IH]; intros i; [exact I |].
  cbn [map_async_from]. apply always_bind; [apply Hf |]. intros y.
  apply always_bind; [apply IH |]. intros ys. exact I.
Qed.

Lemma quiet_bind {A B} (bad : forall X, Event X -> bool) (p : Prog A) (f : A -> Prog B) h :
  always (fun _ X ev => bad X ev = false) p h ->
  (forall a, always (fun _ X ev => bad X ev = false) (f a) h) ->
  always (fun _ X ev => bad X ev = false) (bind p f) h.
Proof. apply (always_bind (fun X ev => bad X ev = false)). Qed.

Lemma quiet_try_catch {A} (bad : forall X, Event X -> bool) (p : Prog A) handler h :
  always (fun _ X ev => bad X ev = false) p h ->
  (forall e, always (fun _ X ev => bad X ev = false) (handler e) h) ->
  always (fun _ X ev => bad X ev = false) (try_catch p handler) h.
Proof. apply (always_try_catch (fun X ev => bad X ev = false)). Qed.

Lemma quiet_map_async {A B} (bad : forall X, Event X -> bool)
    (f : nat -> A -> Prog B) xs i h :
  (forall j x, always (fun _ X ev => bad X ev = false) (f j x) h) ->
  always (fun _ X ev => bad X ev = false) (map_async_from f i xs) h.
Proof. apply (always_map_async (fun X ev => bad X ev = false)). Qed.

Ltac quiet :=
  unfold never;
  repeat first
    [ progress cbn [always is_post is_write map_async_from lookup list_lookup
                    mbind Prog_bind bind try_catch await lift trigger
                    console_log console_error]
    | match goal with
      | |- True => exact I
      | |- _ = false /\ _ => split; [reflexivity |]
      | |- forall _ : _ + _, _ => intros [? | ?]
      | |- forall _, _ => intros ?
      | |- always _ (map_async_from _ _ _) _ => apply quiet_map_async; intros ? ?
      | |- always _ (mbind _ _) _ => unfold mbind, Prog_bind
      | |- always _ (bind _ _) _ => apply quiet_bind; [| intros ?]
      | |- always _ (try_catch _ _) _ => apply quiet_try_catch; [| intros ?]
      | |- context [lift ?r] => destruct r
      | |- context [match ?r with Some _ => _ | None => _ end] => destruct r
      end ].

Lemma never_write_keeps_file {A} path (p : Prog A) s :
  never (is_write path) p ->
  files (state_of (run p s)) !! path = files s !! path.
Proof.
  unfold never. generalize (@nil Obs) as h. revert s.
  induction p as [a | e | c | X ev k IH]; intros s h Hp; try reflexivity.
  destruct Hp as [Hev Hk]. unfold state_of in *. cbn [run].
  destruct (handle ev s) as [answer s1] eqn:Hh.
  specialize (IH answer s1 _ (Hk answer)).
  destruct (run (k answer) s1) as [[obs s2] out]. cbn in IH |- *.
  rewrite IH. clear IH Hk.
  destruct ev; cbn in Hh, Hev;
    try (destruct (oracle _ _ _) in Hh);
    try (injection Hh as _ <-; reflexivity).
  injection Hh as _ <-. cbn. apply lookup_insert_ne.
  intros ->. rewrite String.eqb_refl in Hev. discriminate.
Qed.



(** ** The claims about the process *)


(** C6. When either endpoint URL is absent from the environment, the
    module throws its configuration error at once: the run makes no
    request of any kind (nothing is read, built, signed or submitted),
    ends with the uncaught error, and the exit status is not zero. *)
Theorem C6_missing_endpoint_is_fatal env arg s :
  env "ATLAS_SERVICE_URL" = None \/ env "RPC_URL" = None ->
  run (build_transactions env arg) s =
    ([], s, Uncaught (Error "ATLAS_SERVICE_URL and RPC_URL must be set")) /\
  exit_code (outcome_of (run (build_transactions env arg) s)) <> 0.
Proof.
  intros Hmissing.
  assert (Hprog : build_transactions env arg =
                  Throw (Error "ATLAS_SERVICE_URL and RPC_URL must be set")).
  { unfold build_transactions. cbn [ATLAS_SERVICE_URL RPC_URL].
    destruct Hmissing as [-> | ->]; cbn [falsy orb]; [reflexivity |].
    rewrite orb_true_r. reflexivity. }
  rewrite Hprog. split; [reflexivity | discriminate].
Qed.

Lemma serialize_each txs i :
  (exists payloads,
     mapM (fun tx => ok (tx_serialize tx)) txs = Some payloads /\
     map_async_from (fun _ tx => serialized ← lift (tx_serialize tx);
                                 Ret (bs58_encode serialized)) i txs =
       Ret (map bs58_encode payloads)) \/
  (mapM (fun tx => ok (tx_serialize tx)) txs = None /\
   exists e,
     map_async_from (fun _ tx => serialized ← lift (tx_serialize tx);
                                 Ret (bs58_encode serialized)) i txs = Throw e).
Proof.
  revert i. induction txs as [| tx txs IH]; intros i.
  - left. exists []. split; reflexivity.
  - cbn [map_async_from mapM]. destruct (tx_serialize tx) as [e | bytes]; cbn.
    + right. split; [reflexivity |]. exists e. reflexivity.
    + destruct (IH (S i)) as [[payloads [-> ->]] | [-> [e ->]]]; cbn.
      * left. exists (bytes :: payloads). split; reflexivity.
      * right. split; [reflexivity |]. exists e. reflexivity.
Qed.

Ltac step_run :=
  cbn [mbind Prog_bind bind try_catch await lift trigger console_log console_error
       run handle];
  answer_all.

(** C8. A call of either relay operation posts at most one request, and
    exactly one when the transactions serialize. Its body is
    [{ jsonrpc: "2.0", id: 1, method, params: [payload, { skipPreflight:
    true, encoding: "base58" }] }] with method [sendTransaction] and the
    base58 text of the serialized transaction, or method
    [sendTransactionBundle] and the array of the base58 texts, in order. *)
Theorem C8_relay_requests g s tx txs :
  posts (trace_of (run (sendTransaction g tx) s)) =
    match tx_serialize tx with
    | inr bytes =>
        [ (template (ATLAS_SERVICE_URL g),
           JObj [ ("jsonrpc", JStr "2.0");
                  ("id", JNum (Number.of_Z 1));
                  ("method", JStr "sendTransaction");
                  ("params",
                   JArr [ JStr (bs58_encode bytes);
                          JObj [ ("skipPreflight", JBool true);
                                 ("encoding", JStr "base58") ] ]) ]) ]
    | inl _ => []
    end /\
  posts (trace_of (run (sendTransactionBundle g txs) s)) =
    match mapM (fun tx => ok (tx_serialize tx)) txs with
    | Some payloads =>
        [ (template (ATLAS_SERVICE_URL g),
           JObj [ ("jsonrpc", JStr "2.0");
                  ("id", JNum (Number.of_Z 1));
                  ("method", JStr "sendTransactionBundle");
                  ("params",
                   JArr [ JArr (map (fun bytes => JStr (bs58_encode bytes)) payloads);
                          JObj [ ("skipPreflight", JBool true);
                                 ("encoding", JStr "base58") ] ]) ]) ]
    | None => []
    end.
Proof.
  split.
  - unfold sendTransaction, trace_of.
    destruct (tx_serialize tx) as [e | bytes]; [reflexivity |].
    step_run. destruct answer as [e | response]; step_run; reflexivity.
  - unfold sendTransactionBundle, map_async, trace_of.
    destruct (serialize_each txs 0) as [[payloads [-> ->]] | [-> [e ->]]];
      [| reflexivity].
    step_run. rewrite map_map.
    destruct answer as [e | response]; step_run; reflexivity.
Qed.

(** ** The key file *)

Lemma string_app_cons (x : ascii) (a b : string) :
  String x a +:+ b = String x (a +:+ b).
Proof. reflexivity. Qed.

Lemma parse_run_app st a b :
  parse_run st (a +:+ b) = parse_run (parse_run st a) b.
Proof.
  revert st. induction a as [| c a IH]; intros st; [reflexivity |].
  rewrite string_app_cons. cbn [parse_run]. apply IH.
Qed.

Lemma string_app_assoc (a b c : string) : (a +:+ b) +:+ c = a +:+ (b +:+ c).
Proof.
  induction a as [| x a IH]; [reflexivity |].
  rewrite !string_app_cons. f_equal. exact IH.
Qed.

Example JSON_parse_spaced :
  JSON_parse "[1, 2 ,255,0]" = inr (map Number.of_Z [1; 2; 255; 0]).
Proof. vm_compute. reflexivity. Qed.

Example JSON_parse_leading_zero : JSON_parse "[01]" = inl (SyntaxError "Unexpected token in JSON").
Proof. vm_compute. reflexivity. Qed.

Example Uint8Array_from_wraps :
  Uint8Array_from (map Number.of_Z [256; -1; 7]) = [x00; xff; x07].
Proof. vm_compute. reflexivity. Qed.

Example Uint8Array_toString_joins : Uint8Array_toString [x00; xff; x0a] = "0,255,10".
Proof. vm_compute. reflexivity. Qed.

Lemma parse_byte (b : byte) acc first :
  exists st,
    parse_run (PValue acc first) (byte_toString b) = st /\
    parse_step st "," = PValue (Z.of_N (Byte.to_N b) :: acc) false /\
    parse_step st "]" = PDone (Z.of_N (Byte.to_N b) :: acc).
Proof.
  destruct b; eexists; (split; [reflexivity | split; reflexivity]).
Qed.

Lemma parse_bytes bs : forall b acc first,
  parse_run (PValue acc first) (Uint8Array_toString (b :: bs) +:+ "]") =
  PDone (rev (map (fun x => Z.of_N (Byte.to_N x)) (b :: bs)) ++ acc).
Proof.
  induction bs as [| b' bs IH]; intros b acc first; unfold Uint8Array_toString;
    destruct (parse_byte b acc first) as [st [Hrun [Hcomma Hclose]]].
  - cbn [map String.concat]. rewrite parse_run_app, Hrun.
    cbn [parse_run]. rewrite Hclose. reflexivity.
  - change (String.concat "," (map byte_toString (b :: b' :: bs)))
      with (byte_toString b +:+ String "," (String.concat "," (map byte_toString (b' :: bs)))).
    rewrite string_app_assoc, parse_run_app, Hrun.
    rewrite string_app_cons. cbn [parse_run]. rewrite Hcomma.
    change (String.concat "," (map byte_toString (b' :: bs)))
      with (Uint8Array_toString (b' :: bs)).
    rewrite (IH b'). cbn [map rev]. rewrite <- !app_assoc. reflexivity.
Qed.

Lemma JSON_parse_toString (bytes : Uint8Array) :
  JSON_parse ("[" +:+ Uint8Array_toString bytes +:+ "]") =
  inr (map (fun b => Number.of_Z (Z.of_N (Byte.to_N b))) bytes).
Proof.
  unfold JSON_parse. destruct bytes as [| b bs]; [reflexivity |].
  change (parse_run PStart ("[" +:+ Uint8Array_toString (b :: bs) +:+ "]"))
    with (parse_run (PValue [] true) (Uint8Array_toString (b :: bs) +:+ "]")).
  rewrite parse_bytes, app_nil_r, rev_involutive, map_map. reflexivity.
Qed.

Lemma ToUint8_of_byte (b : byte) :
  ToUint8 (Number.of_Z (Z.of_N (Byte.to_N b))) = b.
Proof. destruct b; vm_compute; reflexivity. Qed.

Lemma Uint8Array_from_numbers (bytes : Uint8Array) :
  Uint8Array_from (map (fun b => Number.of_Z (Z.of_N (Byte.to_N b))) bytes) = bytes.
Proof.
  unfold Uint8Array_from. rewrite map_map.
  induction bytes as [| b bs IH]; [reflexivity |].
  cbn [map]. rewrite ToUint8_of_byte, IH. reflexivity.
Qed.

Lemma fromSecretKey_generated scalar :
  length scalar = 32%nat ->
  length (getPublicKey scalar) = 32%nat ->
  Keypair_fromSecretKey (secretKey (Keypair_of_scalar scalar)) =
  inr (Keypair_of_scalar scalar).
Proof.
  intros Hs Hp. unfold Keypair_fromSecretKey, Keypair_of_scalar. cbn [secretKey].
  rewrite length_app, Hs, Hp. cbn [Nat.eqb negb Nat.add].
  rewrite drop_app_length' by (symmetry; exact Hs).
  rewrite take_app_length' by (symmetry; exact Hs).
  replace (forallb _ _) with true; [reflexivity |].
  symmetry. apply forallb_forall. intros ii _. apply bool_decide_eq_true. reflexivity.
Qed.

Lemma state_of_Vis {A X} (ev : Event X) (k : X -> Prog A) s :
  state_of (run (Vis ev k) s) = state_of (run (k (handle ev s).1) (handle ev s).2).
Proof.
  unfold state_of. cbn [run]. destruct (handle ev s) as [answer s1]. cbn [fst snd].
  destruct (run (k answer) s1) as [[obs s2] out]. reflexivity.
Qed.

Lemma outcome_of_Vis {A X} (ev : Event X) (k : X -> Prog A) s :
  outcome_of (run (Vis ev k) s) = outcome_of (run (k (handle ev s).1) (handle ev s).2).
Proof.
  unfold outcome_of. cbn [run]. destruct (handle ev s) as [answer s1]. cbn [fst snd].
  destruct (run (k answer) s1) as [[obs s2] out]. reflexivity.
Qed.

Ltac unfold_prog :=
  cbn [mbind Prog_bind bind try_catch await lift trigger console_log console_error].

(** C4. When the setup step finds no key file, it generates a keypair and
    writes its 64 secret-key bytes to [keypair.json] as a JSON array of
    integers: the text parses to exactly those bytes. The file still holds
    that text when the setup step ends, and the harness, reading a file
    with that text, loads exactly the keypair that was generated. *)
Theorem C4_keypair_file_round_trip PUBLIC_DEVNET_RPC s scalar :
  falsy PUBLIC_DEVNET_RPC = false ->
  files s !! "keypair.json" = None ->
  (oracle _ RandomPrivateKey (world s)).1 = scalar ->
  length scalar = 32%nat ->
  length (getPublicKey scalar) = 32%nat ->
  let generated := Keypair_of_scalar scalar in
  let text := "[" +:+ Uint8Array_toString (secretKey generated) +:+ "]" in
  files (state_of (run (setupKeypair PUBLIC_DEVNET_RPC) s)) !! "keypair.json" = Some text /\
  JSON_parse text =
    inr (map (fun b => Number.of_Z (Z.of_N (Byte.to_N b))) (secretKey generated)) /\
  forall s2,
    files s2 !! "keypair.json" = Some text ->
    outcome_of (run loadKeypair s2) = Returned generated.
Proof.
  intros Hdev Hnone Hrandom Hscalar Hpublic generated text.
  split; [| split].
  - unfold setupKeypair. rewrite Hdev. unfold Keypair_generate. unfold_prog.
    rewrite state_of_Vis. cbn [handle fst snd]. rewrite Hnone.
    change (bool_decide (is_Some (@None string))) with false. unfold_prog.
    rewrite state_of_Vis. cbn [handle].
    destruct (oracle _ RandomPrivateKey (world s)) as [answer w] eqn:Horacle.
    cbn [fst] in Hrandom. subst answer. cbn [fst snd]. unfold_prog.
    rewrite state_of_Vis. cbn [handle fst snd].
    rewrite never_write_keeps_file.
    + cbn [files]. unfold Buffer_toString, Buffer_from.
      rewrite string_of_list_byte_of_string. apply lookup_insert_eq.
    + quiet.
  - apply JSON_parse_toString.
  - intros s2 Hfile. unfold loadKeypair. unfold_prog.
    rewrite outcome_of_Vis. cbn [handle fst snd]. rewrite Hfile.
    unfold_prog. unfold text. rewrite JSON_parse_toString. unfold_prog.
    rewrite Uint8Array_from_numbers.
    unfold generated. rewrite (fromSecretKey_generated scalar Hscalar Hpublic).
    reflexivity.
Qed.

(** ** Paths through [runTest] *)

Lemma always_of_never {A} g mode (p : Prog A) h :
  never (@is_post) p -> always (post_submits_scenario g mode) p h.
Proof.
  intros Hp. apply (always_shift (fun X ev => is_post ev = false) p [] h) in Hp.
  revert Hp. apply always_weaken. intros h' X ev Hev.
  destruct ev; try exact I. discriminate Hev.
Qed.

Ltac walk :=
  repeat first
    [ progress cbn [always post_submits_scenario map_async_from replicate
                    transactions lookup list_lookup
                    mbind Prog_bind bind try_catch await lift trigger
                    console_log console_error]
    | match goal with
      | |- True => exact I
      | |- True /\ _ => split; [exact I |]
      | |- forall _ : _ + _, _ => intros [? | ?]
      | |- forall _, _ => intros ?
      | |- context [lift ?r] => destruct r eqn:?
      end ].

Lemma submits_scenario_intro g mode h url body keypair recipients live st signed payloads :
  fetched h = [live] ->
  runTest_scenario mode keypair recipients live = Ret st ->
  Forall2 (fun tx stx => tx_sign tx [keypair] = inr stx) (transactions st) signed ->
  Forall2 (fun stx bytes => tx_serialize stx = inr bytes) signed payloads ->
  length (filter obs_is_fetch h) = 1%nat ->
  length recipients = numRecipients mode ->
  map (fun tx => recentBlockhash (message tx)) (transactions st) =
    map (fun stale : bool => if stale then stale_blockhash else live)
        (spec_stale_legs mode) ->
  url = template (ATLAS_SERVICE_URL g) ->
  ((exists bytes, payloads = [bytes] /\
      body = jsonrpc_request "sendTransaction" (JStr (bs58_encode bytes))) \/
   body = jsonrpc_request "sendTransactionBundle"
            (JArr (map (fun bytes => JStr (bs58_encode bytes)) payloads))) ->
  submits_scenario g mode h url body.
Proof. intros. exists keypair, recipients, live, st, signed, payloads. tauto. Qed.

Ltac at_post lemma :=
  split;
  [ eapply submits_scenario_intro;
    [ reflexivity
    | apply lemma
    | cbn [transactions]; repeat (constructor; [eassumption |]); constructor
    | repeat (constructor; [eassumption |]); constructor
    | reflexivity
    | reflexivity
    | reflexivity
    | reflexivity
    | first [ left; eexists; split; reflexivity | right; reflexivity ] ]
  | intros ?; apply always_of_never; quiet ].

Ltac through_runTest lemma :=
  unfold runTest, loadKeypair, Keypair_generate, checkBalance, map_async;
  rewrite declare_expected_value, txnFee_value;
  match goal with
  | |- context [numRecipients ?m] =>
      let n := eval vm_compute in (numRecipients m) in
      change (numRecipients m) with n
  end;
  walk;
  match goal with
  | |- context [scenario_switch ?m ?k ?r ?b 5000 ?st] =>
      change (scenario_switch m k r b 5000 st) with (runTest_scenario m k r b)
  end;
  rewrite lemma;
  unfold sign_all, submit_switch, sendTransaction, sendTransactionBundle, confirm_all,
    confirmTransaction, report_recipient, checkBalance, map_async;
  cbn [String.eqb Ascii.eqb Bool.eqb orb];
  walk;
  at_post lemma.

Lemma runTest_posts g mode :
  In mode test_modes ->
  always (post_submits_scenario g mode) (runTest g mode) [].
Proof.
  intros Hmode. cbn [test_modes In] in Hmode.
  destruct Hmode as [<- | [<- | [<- | [<- | [<- | []]]]]].
  - through_runTest scenario_valid_single.
  - through_runTest scenario_invalid_single.
  - through_runTest scenario_valid_bundle.
  - through_runTest scenario_invalid_bundle_first.
  - through_runTest scenario_invalid_bundle_second.
Qed.

(** C9. Take any run of [runTest] in one of the five scenarios and any
    request it posts to the relay. Before that request exactly one
    reference point was fetched, [live]. The transactions in the request
    are the signed, serialized transactions that the first [switch] built
    from [live]: leg by leg their reference point is the sentinel where
    the scenario table marks the leg stale and [live] elsewhere, and
    nothing else. The sentinel is the string of 32 characters [1]. *)
Theorem C9_reference_points g mode s pre url body answer post :
  In mode test_modes ->
  trace_of (run (runTest g mode) s) =
    pre ++ Observed (AxiosPost url body) answer :: post ->
  stale_blockhash = string_of_list_ascii (replicate 32 "1"%char) /\
  exists keypair recipients live st signed payloads,
    length (filter obs_is_fetch pre) = 1%nat /\
    fetched pre = [live] /\
    length recipients = numRecipients mode /\
    runTest_scenario mode keypair recipients live = Ret st /\
    map (fun tx => recentBlockhash (message tx)) (transactions st) =
      map (fun stale : bool => if stale then stale_blockhash else live)
          (spec_stale_legs mode) /\
    Forall2 (fun tx stx => tx_sign tx [keypair] = inr stx) (transactions st) signed /\
    Forall2 (fun stx bytes => tx_serialize stx = inr bytes) signed payloads /\
    url = template (ATLAS_SERVICE_URL g) /\
    ((exists bytes, payloads = [bytes] /\
        body = jsonrpc_request "sendTransaction" (JStr (bs58_encode bytes))) \/
     body = jsonrpc_request "sendTransactionBundle"
              (JArr (map (fun bytes => JStr (bs58_encode bytes)) payloads))).
Proof.
  intros Hmode Htrace. split; [reflexivity |].
  exact (always_run _ _ _ _ _ _ _ (runTest_posts g mode Hmode) Htrace).
Qed.

(** ** More about runs *)

Lemma never_trace {A} (bad : forall X, Event X -> bool) (p : Prog A) s :
  never bad p ->
  Forall (fun o => obs_is bad o = false) (trace_of (run p s)).
Proof.
  intros Hp. apply Forall_forall. intros o Ho.
  apply list_elem_of_split in Ho as [pre [post Htr]].
  pose proof (always_run _ _ _ _ _ _ _ Hp Htr) as H.
  destruct o as [X ev x]. exact H.
Qed.

Lemma wp_run {A} (Q : list Obs -> Outcome A -> Prop) (p : Prog A) h s :
  wp Q p h -> Q (h ++ trace_of (run p s)) (outcome_of (run p s)).
Proof.
  revert h s. induction p as [a | e | c | X ev k IH]; intros h s Hp;
    try (unfold trace_of, outcome_of; cbn; rewrite app_nil_r; exact Hp).
  unfold trace_of, outcome_of in *. cbn [run].
  destruct (handle ev s) as [answer s1].
  specialize (IH answer (h ++ [Observed ev answer]) s1 (Hp answer)).
  destruct (run (k answer) s1) as [[obs s2] out]. cbn in IH |- *.
  rewrite <- app_assoc in IH. exact IH.
Qed.

Lemma wp_weaken {A} (Q Q' : list Obs -> Outcome A -> Prop) (p : Prog A) h :
  (forall h' o, Q h' o -> Q' h' o) -> wp Q p h -> wp Q' p h.
Proof.
  intros HQ. revert h. induction p as [a | e | c | X ev k IH]; intros h Hp; cbn in *; auto.
Qed.

Lemma no_exit_bind {A B} (p : Prog A) (f : A -> Prog B) :
  no_exit p -> (forall a, no_exit (f a)) -> no_exit (bind p f).
Proof.
  intros Hp Hf. induction p as [a | e | c | X ev k IH]; cbn in *; auto.
Qed.

Lemma no_exit_try_catch {A} (p : Prog A) handler :
  no_exit p -> (forall e, no_exit (handler e)) -> no_exit (try_catch p handler).
Proof.
  intros Hp Hh. induction p as [a | e | c | X ev k IH]; cbn in *; auto.
Qed.

Lemma no_exit_map_async {A B} (f : nat -> A -> Prog B) xs i :
  (forall j x, no_exit (f j x)) -> no_exit (map_async_from f i xs).
Proof.
  intros Hf. revert i. induction xs as [| x xs IH]; intros i; [exact I |].
  cbn [map_async_from]. apply no_exit_bind; [apply Hf |]. intros y.
  apply no_exit_bind; [apply IH |]. intros ys. exact I.
Qed.

Lemma run_bind_throws {A B} (p : Prog A) (f : A -> Prog B) s e :
  outcome_of (run p s) = Uncaught e ->
  trace_of (run (bind p f) s) = trace_of (run p s) /\
  state_of (run (bind p f) s) = state_of (run p s) /\
  outcome_of (run (bind p f) s) = Uncaught e.
Proof.
  revert s. induction p as [a | e' | c | X ev k IH]; intros s Hout;
    unfold trace_of, state_of, outcome_of in *; cbn in Hout |- *;
    try discriminate Hout.
  - injection Hout as ->. auto.
  - destruct (handle ev s) as [answer s1]. specialize (IH answer s1).
    destruct (run (k answer) s1) as [[obs s2] out].
    destruct (run (bind (k answer) f) s1) as [[obs' s2'] out'].
    cbn in *. destruct (IH Hout) as [-> [-> ->]]. auto.
Qed.

(** ** The key file, when it cannot be loaded *)

Lemma key_halves_agree (public computed : list byte) :
  length public = 32%nat ->
  forallb (fun ii => bool_decide (public !! ii = computed !! ii)) (seq 0 32) = true <->
  take 32 computed = public.
Proof.
  intros Hlen. rewrite forallb_forall. split.
  - intros Hall. apply list_eq. intros ii.
    destruct (decide (ii < 32)%nat) as [Hlt | Hge].
    + rewrite lookup_take_lt by exact Hlt. symmetry.
      eapply bool_decide_eq_true_1. apply Hall. apply in_seq. lia.
    + rewrite lookup_take_ge by lia. symmetry. apply lookup_ge_None. lia.
  - intros <- ii Hii. apply in_seq in Hii. apply bool_decide_eq_true_2.
    rewrite lookup_take_lt by lia. reflexivity.
Qed.

(** X1. [loadKeypair] on a key file that holds the byte array [bytes]:
    the keypair is returned exactly when there are 64 bytes and the last
    32 are the public key derived from the first 32; another length throws
    "bad secret key size", a mismatch throws "provided secretKey is
    invalid". In each case the file is read once and nothing else is
    requested. *)
Theorem loadKeypair_accepts_only_consistent_keys s (bytes : Uint8Array) :
  files s !! "keypair.json" = Some ("[" +:+ Uint8Array_toString bytes +:+ "]") ->
  trace_of (run loadKeypair s) =
    [Observed (FsReadFileSync "keypair.json")
       (inr ("[" +:+ Uint8Array_toString bytes +:+ "]"))] /\
  outcome_of (run loadKeypair s) =
    if negb (length bytes =? 64)%nat then Uncaught (Error "bad secret key size")
    else if bool_decide (take 32 (getPublicKey (take 32 bytes)) = drop 32 bytes)
         then Returned {| publicKey := drop 32 bytes; secretKey := bytes |}
         else Uncaught (Error "provided secretKey is invalid").
Proof.
  intros Hfile. unfold loadKeypair, trace_of, outcome_of.
  cbn [mbind Prog_bind bind await lift run handle]. rewrite Hfile.
  unfold_prog. rewrite JSON_parse_toString. unfold_prog.
  rewrite Uint8Array_from_numbers. unfold Keypair_fromSecretKey.
  destruct (negb (length bytes =? 64)%nat) eqn:Hlen; [cbn; auto |].
  apply negb_false_iff, Nat.eqb_eq in Hlen.
  assert (Hpub : length (drop 32 bytes) = 32%nat) by (rewrite length_drop; lia).
  pose proof (key_halves_agree (drop 32 bytes) (getPublicKey (take 32 bytes)) Hpub) as Hiff.
  destruct (forallb _ (seq 0 32)) eqn:Hall.
  - rewrite bool_decide_eq_true_2 by (apply Hiff; reflexivity). cbn. auto.
  - rewrite bool_decide_eq_false_2; [cbn; auto |].
    intros Heq. apply Hiff in Heq. discriminate Heq.
Qed.

Lemma filter_none (f : Obs -> bool) (l : list Obs) :
  Forall (fun o => f o = false) l -> filter f l = [].
Proof.
  induction 1 as [| o l Ho _ IH]; [reflexivity |].
  rewrite filter_cons, IH. destruct (decide (f o)) as [Hf | _]; [| reflexivity].
  rewrite Ho in Hf. destruct Hf.
Qed.

Lemma never_filter {A} (bad : forall X, Event X -> bool) (p : Prog A) s :
  never bad p -> filter (obs_is bad) (trace_of (run p s)) = [].
Proof. intros Hp. apply filter_none, never_trace, Hp. Qed.

(** X2. Whatever makes [loadKeypair] throw (no key file, a text that does
    not parse, a key that is refused) stops [runTest] there, with the same
    error: no recipient is generated and no request goes to the ledger
    gateway or the relay. *)
Theorem runTest_stops_when_the_key_does_not_load g mode s e :
  outcome_of (run loadKeypair s) = Uncaught e ->
  trace_of (run (runTest g mode) s) = trace_of (run loadKeypair s) /\
  outcome_of (run (runTest g mode) s) = Uncaught e /\
  filter obs_is_network (trace_of (run (runTest g mode) s)) = [] /\
  filter (obs_is (@is_random)) (trace_of (run (runTest g mode) s)) = [].
Proof.
  intros Hout. unfold runTest. unfold mbind, Prog_bind.
  match goal with |- context [run (bind loadKeypair ?k) s] =>
    destruct (run_bind_throws loadKeypair k s e Hout) as [Htr [_ Ho]] end.
  rewrite Htr, Ho. split; [reflexivity |]. split; [reflexivity |].
  split.
  - apply (never_filter (@is_network)). unfold loadKeypair. quiet.
  - apply (never_filter (@is_random)). unfold loadKeypair. quiet.
Qed.

(** ** What no run of the harness does *)

Ltac hush tac :=
  unfold never;
  repeat first
    [ progress cbn [always map_async_from lookup list_lookup mbind Prog_bind bind
                    try_catch await lift trigger console_log console_error]
    | match goal with
      | |- True => exact I
      | |- _ = false /\ _ => split; [first [reflexivity | tac] |]
      | |- forall _ : _ + _, _ => intros [? | ?]
      | |- forall _, _ => intros ?
      | |- always _ (map_async_from _ _ _) _ => apply quiet_map_async; intros ? ?
      | |- always _ (mbind _ _) _ => unfold mbind, Prog_bind
      | |- always _ (bind _ _) _ => apply quiet_bind; [| intros ?]
      | |- always _ (try_catch _ _) _ => apply quiet_try_catch; [| intros ?]
      | |- always _ (if ?b then _ else _) _ => destruct b
      | |- always _ (match ?r with Some _ => _ | None => _ end) _ => destruct r
      | |- always _ (lift ?r) _ => destruct r
      end ].

Ltac open_runTest :=
  unfold runTest, loadKeypair, Keypair_generate, declare_expected, scenario_switch,
    add_at, recipient_key, createTestTransaction, sign_all, submit_switch,
    sendTransaction, sendTransactionBundle, confirm_all, confirmTransaction,
    report_recipient, checkBalance, map_async.

Lemma runTest_writes_one_file g mode path :
  path <> "test-transactions.json" -> never (is_write path) (runTest g mode).
Proof.
  intros Hpath.
  assert (Hne : String.eqb "test-transactions.json" path = false).
  { apply String.eqb_neq. congruence. }
  open_runTest. hush ltac:(exact Hne).
Qed.

(** X3. No run of the harness, whatever its configuration, its argument
    and the answers it receives, creates or changes a file other than
    [test-transactions.json]; the key file in particular is left as it
    was. *)
Theorem harness_leaves_other_files_alone env arg s path :
  path <> "test-transactions.json" ->
  files (state_of (run (build_transactions env arg) s)) !! path = files s !! path.
Proof.
  intros Hpath. apply never_write_keeps_file.
  unfold build_transactions, main.
  destruct (falsy _ || falsy _); [exact I |].
  apply quiet_try_catch; [| intros e; hush idtac].
  destruct (falsy arg || _); [hush idtac |].
  apply runTest_writes_one_file, Hpath.
Qed.

Ltac calm :=
  repeat first
    [ progress cbn [no_exit map_async_from lookup list_lookup mbind Prog_bind bind
                    try_catch await lift trigger console_log console_error]
    | match goal with
      | |- True => exact I
      | |- forall _ : _ + _, _ => intros [? | ?]
      | |- forall _, _ => intros ?
      | |- no_exit (map_async_from _ _ _) => apply no_exit_map_async; intros ? ?
      | |- no_exit (mbind _ _) => unfold mbind, Prog_bind
      | |- no_exit (bind _ _) => apply no_exit_bind; [| intros ?]
      | |- no_exit (try_catch _ _) => apply no_exit_try_catch; [| intros ?]
      | |- no_exit (if ?b then _ else _) => destruct b
      | |- no_exit (match ?r with Some _ => _ | None => _ end) => destruct r
      | |- no_exit (lift ?r) => destruct r
      end ].

Lemma runTest_does_not_exit g mode : no_exit (runTest g mode).
Proof. open_runTest. calm. Qed.

Lemma caught_at_top_level (p : Prog unit) s :
  no_exit p ->
  outcome_of (run (try_catch p (fun err => console_error [LErr err])) s) = Returned tt.
Proof.
  revert s. induction p as [[] | e | c | X ev k IH]; intros s Hp.
  - reflexivity.
  - unfold outcome_of. cbn [try_catch console_error trigger run].
    destruct (handle (ConsoleError [LErr e]) s) as [[] s1]. reflexivity.
  - destruct Hp.
  - cbn [try_catch]. rewrite outcome_of_Vis. apply IH, Hp.
Qed.

(** X4. With both endpoint URLs configured, the outcome of the process is
    decided by the argument alone: status 1 after the usage text for a
    missing or unlisted scenario name, and a normal end, status 0, for
    every run of a scenario, also when the run threw (a rejected
    submission, a failed balance read, an unreadable key file): the error
    is caught at top level and only printed. *)
Theorem exit_status_depends_on_the_argument_only env arg s :
  falsy (env "ATLAS_SERVICE_URL") = false ->
  falsy (env "RPC_URL") = false ->
  outcome_of (run (build_transactions env arg) s) =
    (if falsy arg || negb (existsb (String.eqb (template arg)) test_modes)
     then Exited 1 else Returned tt) /\
  exit_code (outcome_of (run (build_transactions env arg) s)) =
    (if falsy arg || negb (existsb (String.eqb (template arg)) test_modes)
     then 1 else 0).
Proof.
  intros Hatlas Hrpc.
  assert (Hout : outcome_of (run (build_transactions env arg) s) =
                 (if falsy arg || negb (existsb (String.eqb (template arg)) test_modes)
                  then Exited 1 else Returned tt)).
  { unfold build_transactions, main. cbn [ATLAS_SERVICE_URL RPC_URL].
    rewrite Hatlas, Hrpc. cbn [orb].
    destruct (falsy arg || _).
    - unfold outcome_of. cbn [mbind Prog_bind bind console_error trigger try_catch run].
      destruct (handle _ s) as [[] s1]. reflexivity.
    - apply caught_at_top_level, runTest_does_not_exit. }
  split; [exact Hout |]. rewrite Hout.
  destruct (falsy arg || _); reflexivity.
Qed.

(** ** One submission per run *)

Lemma posts_at_most_mono {A} (p : Prog A) n m :
  (n <= m)%nat -> posts_at_most n p -> posts_at_most m p.
Proof.
  revert n m. induction p as [a | e | c | X ev k IH]; intros n m Hle Hp; try exact I.
  cbn [posts_at_most] in *. destruct (is_post ev).
  - destruct n as [| n]; [destruct Hp |]. destruct m as [| m]; [lia |].
    intros x. apply (IH x n m); [lia | apply Hp].
  - intros x. apply (IH x n m Hle), Hp.
Qed.

Lemma posts_at_most_quiet {A} (p : Prog A) h n :
  always (fun _ X ev => is_post ev = false) p h -> posts_at_most n p.
Proof.
  revert h. induction p as [a | e | c | X ev k IH]; intros h Hp; try exact I.
  destruct Hp as [Hev Hk]. cbn [posts_at_most]. rewrite Hev.
  intros x. eapply IH, Hk.
Qed.

Lemma posts_at_most_bind {A B} (p : Prog A) (f : A -> Prog B) a b :
  posts_at_most a p -> (forall x, posts_at_most b (f x)) ->
  posts_at_most (a + b) (bind p f).
Proof.
  revert a. induction p as [r | e | c | X ev k IH]; intros a Hp Hf; try exact I.
  - cbn [bind]. apply (posts_at_most_mono _ b); [lia | apply Hf].
  - cbn [bind posts_at_most] in *. destruct (is_post ev).
    + destruct a as [| a]; [destruct Hp |]. intros x. apply (IH x a); [apply Hp | exact Hf].
    + intros x. apply (IH x a); [apply Hp | exact Hf].
Qed.

Lemma posts_at_most_after {A B} (p : Prog A) (f : A -> Prog B) h n :
  always (fun _ X ev => is_post ev = false) p h ->
  (forall x, posts_at_most n (f x)) ->
  posts_at_most n (bind p f).
Proof.
  intros Hp Hf. apply (posts_at_most_bind p f 0 n); [| exact Hf].
  eapply posts_at_most_quiet, Hp.
Qed.

Lemma posts_at_most_try_catch {A} (p : Prog A) handler h n :
  posts_at_most n p ->
  (forall e, always (fun _ X ev => is_post ev = false) (handler e) h) ->
  posts_at_most n (try_catch p handler).
Proof.
  revert n. induction p as [r | e | c | X ev k IH]; intros n Hp Hh; try exact I.
  - cbn [try_catch]. eapply posts_at_most_quiet, Hh.
  - cbn [try_catch posts_at_most] in *. destruct (is_post ev).
    + destruct n as [| n]; [destruct Hp |]. intros x. apply IH; [apply Hp | exact Hh].
    + intros x. apply IH; [apply Hp | exact Hh].
Qed.

Lemma posts_at_most_run {A} (p : Prog A) n s :
  posts_at_most n p -> (length (posts (trace_of (run p s))) <= n)%nat.
Proof.
  revert n s. induction p as [r | e | c | X ev k IH]; intros n s Hp;
    try (cbn; lia).
  unfold trace_of in *. cbn [run posts_at_most] in *.
  destruct (handle ev s) as [answer s1]. specialize (IH answer).
  destruct ev; cbn [is_post] in Hp;
    try (specialize (IH n s1 (Hp answer));
         destruct (run (k answer) s1) as [[obs s2] out]; exact IH).
  destruct n as [| n]; [destruct Hp |].
  specialize (IH n s1 (Hp answer)).
  destruct (run (k answer) s1) as [[obs s2] out]. cbn in IH |- *. lia.
Qed.

Lemma posts_at_most_assoc {A B C} (p : Prog A) (f : A -> Prog B) (g : B -> Prog C) n :
  posts_at_most n (bind p (fun x => bind (f x) g)) ->
  posts_at_most n (bind (bind p f) g).
Proof.
  revert n. induction p as [r | e | c | X ev k IH]; intros n Hp; try exact Hp.
  cbn [bind posts_at_most] in *. destruct (is_post ev).
  - destruct n as [| n]; [destruct Hp |]. intros x. apply IH, Hp.
  - intros x. apply IH, Hp.
Qed.

Ltac count_posts :=
  repeat first
    [ progress cbn [posts_at_most is_post map_async_from lookup list_lookup mbind
                    Prog_bind bind try_catch await lift trigger console_log console_error]
    | match goal with
      | |- True => exact I
      | |- forall _ : _ + _, _ => intros [? | ?]
      | |- forall _, _ => intros ?
      | |- posts_at_most _ (mbind _ _) => unfold mbind, Prog_bind
      | |- posts_at_most _ (bind (map_async_from _ _ _) _) =>
          apply (posts_at_most_after _ _ []); [hush idtac | intros ?]
      | |- posts_at_most O _ => apply (posts_at_most_quiet _ []); hush idtac
      | |- posts_at_most _ (bind (bind _ _) _) => apply posts_at_most_assoc
      | |- posts_at_most _ (bind (lift ?r) _) => destruct r
      | |- posts_at_most _ (bind (if ?b then _ else _) _) => destruct b
      | |- posts_at_most _ (bind (match ?r with Some _ => _ | None => _ end) _) => destruct r
      | |- posts_at_most _ (if ?b then _ else _) => destruct b
      | |- posts_at_most _ (match ?r with Some _ => _ | None => _ end) => destruct r
      | |- posts_at_most _ (lift ?r) => destruct r
      | |- posts_at_most _ (map_async_from _ _ _) =>
          apply (posts_at_most_quiet _ []); hush idtac
      | |- posts_at_most _ (try_catch (bind (lift ?r) _) _) => destruct r
      end ].

Lemma runTest_posts_at_most_once g mode : posts_at_most 1 (runTest g mode).
Proof. open_runTest. unfold mbind, Prog_bind. count_posts. Qed.

(** X5. An invocation of the harness posts at most one request to the
    relay, whatever the scenario and whatever the answers: a rejected or
    failed submission is not repeated, and nothing is submitted a second
    time after a success. *)
Theorem at_most_one_submission_per_run env arg s :
  (length (posts (trace_of (run (build_transactions env arg) s))) <= 1)%nat.
Proof.
  apply posts_at_most_run. unfold build_transactions, main.
  destruct (falsy _ || falsy _); [exact I |].
  apply (posts_at_most_try_catch _ _ []); [| intros e; hush idtac].
  destruct (falsy arg || _); [count_posts |].
  apply runTest_posts_at_most_once.
Qed.

(** X6. In the invalid-bundle-first scenario no confirmation is ever
    requested, whatever the relay answers, also when it returns
    signatures: the balances are read right after the submission. *)
Theorem invalid_bundle_first_never_confirms g s :
  filter (obs_is (@is_confirm))
    (trace_of (run (runTest g "invalid-bundle-first") s)) = [].
Proof.
  apply (never_filter (@is_confirm)).
  open_runTest. cbn [String.eqb Ascii.eqb Bool.eqb orb]. hush idtac.
Qed.

(** ** A rejected submission *)

Lemma wp_without_rejection {A} (P : list Obs -> Outcome A -> JsError -> Prop)
    (p : Prog A) h :
  never (@is_post) p ->
  rejections h = [] ->
  wp (fun h' o => forall e, In e (rejections h') -> P h' o e) p h.
Proof.
  unfold never. generalize (@nil Obs) as h0. revert h.
  induction p as [a | e | c | X ev k IH]; intros h h0 Hp Hrej;
    try (cbn [wp]; intros e' He'; rewrite Hrej in He'; destruct He').
  destruct Hp as [Hev Hk]. cbn [wp]. intros x.
  apply (IH x _ _ (Hk x)).
  unfold rejections in *. rewrite omap_app, Hrej.
  destruct ev; try reflexivity. discriminate Hev.
Qed.

Ltac wp_walk :=
  repeat first
    [ progress cbn [wp map_async_from replicate transactions lookup list_lookup
                    mbind Prog_bind bind try_catch await lift trigger
                    console_log console_error]
    | match goal with
      | |- forall _ : JsError + AxiosResponse, _ => fail 1
      | |- forall _ : _ + _, _ => intros [? | ?]
      | |- forall _ : bool, _ => intros []
      | |- forall _, _ => intros ?
      | |- context [lift ?r] => destruct r eqn:?
      end ].

Ltac no_rejection_yet :=
  match goal with
  | H : In _ (rejections _) |- _ => vm_compute in H; destruct H
  end.

Ltac wp_through_runTest lemma :=
  unfold runTest, loadKeypair, Keypair_generate, checkBalance, map_async;
  rewrite declare_expected_value, txnFee_value;
  match goal with
  | |- context [numRecipients ?m] =>
      let n := eval vm_compute in (numRecipients m) in
      change (numRecipients m) with n
  end;
  wp_walk; try solve [no_rejection_yet];
  match goal with
  | |- context [scenario_switch ?m ?k ?r ?b 5000 ?st] =>
      change (scenario_switch m k r b 5000 st) with (runTest_scenario m k r b)
  end;
  rewrite lemma;
  unfold sign_all, submit_switch, sendTransaction, sendTransactionBundle, confirm_all,
    confirmTransaction, report_recipient, checkBalance, map_async;
  cbn [String.eqb Ascii.eqb Bool.eqb orb];
  wp_walk; try solve [no_rejection_yet].

Ltac rejected_or_not :=
  intros [? | ?];
  [ wp_walk;
    match goal with
    | H : In _ (rejections _) |- _ =>
        vm_compute in H; destruct H as [<- | []];
        repeat match goal with x : unit |- _ => destruct x end;
        repeat split; reflexivity
    end
  | apply wp_without_rejection; [quiet | reflexivity] ].

Lemma runTest_rejected g mode :
  In mode test_modes ->
  wp (fun h o => forall e, In e (rejections h) ->
        o = Uncaught e /\
        filter (obs_is (@is_confirm)) h = [] /\
        written h = [] /\
        length (filter (obs_is (@is_balance)) h) = S (numRecipients mode) /\
        error_lines h =
          [[LStr (if includes mode "bundle" then "Error sending transaction bundle:"
                  else "Error sending transaction:");
            LErr e]] /\
        last h =
          Some (Observed
                  (ConsoleError
                     [LStr (if includes mode "bundle" then "Error sending transaction bundle:"
                            else "Error sending transaction:");
                      LErr e]) tt))
     (runTest g mode) [].
Proof.
  intros Hmode. cbn [test_modes In] in Hmode.
  destruct Hmode as [<- | [<- | [<- | [<- | [<- | []]]]]].
  - wp_through_runTest scenario_valid_single. rejected_or_not.
  - wp_through_runTest scenario_invalid_single. rejected_or_not.
  - wp_through_runTest scenario_valid_bundle. rejected_or_not.
  - wp_through_runTest scenario_invalid_bundle_first. rejected_or_not.
  - wp_through_runTest scenario_invalid_bundle_second. rejected_or_not.
Qed.

(** X7. When the relay rejects the submission, in any of the five
    scenarios, [runTest] stops there: the error is printed once by
    [console.error] and thrown on unchanged; no confirmation is requested,
    no balance is read after the initial snapshot, and no file is
    written. *)
Theorem rejected_submission_aborts_the_run g mode s e :
  In mode test_modes ->
  In e (rejections (trace_of (run (runTest g mode) s))) ->
  outcome_of (run (runTest g mode) s) = Uncaught e /\
  filter (obs_is (@is_confirm)) (trace_of (run (runTest g mode) s)) = [] /\
  written (trace_of (run (runTest g mode) s)) = [] /\
  length (filter (obs_is (@is_balance)) (trace_of (run (runTest g mode) s))) =
    S (numRecipients mode) /\
  error_lines (trace_of (run (runTest g mode) s)) =
    [[LStr (if includes mode "bundle" then "Error sending transaction bundle:"
            else "Error sending transaction:");
      LErr e]] /\
  last (trace_of (run (runTest g mode) s)) =
    Some (Observed
            (ConsoleError
               [LStr (if includes mode "bundle" then "Error sending transaction bundle:"
                      else "Error sending transaction:");
                LErr e]) tt).
Proof.
  intros Hmode He.
  exact (wp_run _ _ [] s (runTest_rejected g mode Hmode) e He).
Qed.

(** ** The setup step *)



Lemma never_any_write_keeps_files {A} (p : Prog A) s :
  never (@is_any_write) p -> files (state_of (run p s)) = files s.
Proof.
  unfold never. generalize (@nil Obs) as h. revert s.
  induction p as [a | e | c | X ev k IH]; intros s h Hp; try reflexivity.
  destruct Hp as [Hev Hk]. rewrite state_of_Vis.
  rewrite (IH _ _ _ (Hk _)). clear IH Hk.
  destruct ev; cbn in Hev |- *; try discriminate Hev;
    try reflexivity; destruct (oracle _ _ _); reflexivity.
Qed.

Lemma trace_of_Vis {A X} (ev : Event X) (k : X -> Prog A) s :
  trace_of (run (Vis ev k) s) =
  Observed ev (handle ev s).1 :: trace_of (run (k (handle ev s).1) (handle ev s).2).
Proof.
  unfold trace_of. cbn [run]. destruct (handle ev s) as [answer s1]. cbn [fst snd].
  destruct (run (k answer) s1) as [[obs s2] out]. reflexivity.
Qed.

Lemma setupKeypair_with_a_key_file PUBLIC_DEVNET_RPC s :
  falsy PUBLIC_DEVNET_RPC = false ->
  is_Some (files s !! "keypair.json") ->
  files (state_of (run (setupKeypair PUBLIC_DEVNET_RPC) s)) = files s.
Proof.
  intros Hrpc Hkey. unfold setupKeypair. rewrite Hrpc.
  unfold_prog. rewrite state_of_Vis. cbn [handle fst snd].
  rewrite (bool_decide_eq_true_2 _ Hkey).
  apply never_any_write_keeps_files. hush idtac.
Qed.

(** X9. The setup step writes files only when it is configured and finds
    no key file: with [PUBLIC_DEVNET_RPC] unset, or with a key file
    present, it leaves every file as it was; an existing key is never
    overwritten. *)
Theorem setup_keeps_an_existing_key PUBLIC_DEVNET_RPC s :
  falsy PUBLIC_DEVNET_RPC = true \/ is_Some (files s !! "keypair.json") ->
  files (state_of (run (setupKeypair PUBLIC_DEVNET_RPC) s)) = files s.
Proof.
  intros Hcase. destruct (falsy PUBLIC_DEVNET_RPC) eqn:Hrpc.
  - unfold setupKeypair. rewrite Hrpc. apply never_any_write_keeps_files. hush idtac.
  - destruct Hcase as [Habs | Hkey]; [discriminate Habs |].
    apply setupKeypair_with_a_key_file; assumption.
Qed.


Lemma always_trace {A} (good : forall X, Event X -> Prop) (p : Prog A) h s :
  always (fun _ => good) p h ->
  Forall (fun o => match o with Observed ev _ => good _ ev end) (trace_of (run p s)).
Proof.
  intros Hp. apply Forall_forall. intros o Ho.
  apply list_elem_of_split in Ho as [pre [post Htr]].
  pose proof (always_run _ _ _ _ _ _ _ Hp Htr) as H.
  destruct o as [X ev x]. exact H.
Qed.


(** ** Runs that return *)

Lemma wp_on_run {A} keep (Q : list Obs -> Outcome A -> Prop) (p : Prog A) h s :
  wp_on keep Q p h ->
  Q (h ++ filter (obs_is keep) (trace_of (run p s))) (outcome_of (run p s)).
Proof.
  revert h s. induction p as [a | e | c | X ev k IH]; intros h s Hp;
    try (unfold trace_of, outcome_of; cbn; rewrite app_nil_r; exact Hp).
  unfold trace_of, outcome_of in *. cbn [run].
  destruct (handle ev s) as [answer s1].
  specialize (IH answer _ s1 (Hp answer)).
  destruct (run (k answer) s1) as [[obs s2] out]. cbn [fst snd] in IH |- *.
  rewrite filter_cons. cbn [obs_is].
  destruct (keep X ev); cbn.
  - rewrite <- app_assoc in IH. exact IH.
  - exact IH.
Qed.

Lemma wp_on_skip {A B} keep (P : list Obs -> B -> Prop) (p : Prog A) (f : A -> Prog B) h :
  never keep p ->
  (forall a, wp_on keep (when_returned P) (f a) h) ->
  wp_on keep (when_returned P) (bind p f) h.
Proof.
  unfold never. generalize (@nil Obs) as h0.
  induction p as [a | e | c | X ev k IH]; intros h0 Hp Hf; cbn [bind wp_on when_returned];
    [apply Hf | exact I | exact I |].
  destruct Hp as [Hev Hk]. intros x. rewrite Hev. exact (IH x _ (Hk x) Hf).
Qed.

Lemma wp_on_assoc {A B C} keep (Q : list Obs -> Outcome C -> Prop)
    (p : Prog A) (f : A -> Prog B) (g : B -> Prog C) h :
  wp_on keep Q (bind p (fun a => bind (f a) g)) h ->
  wp_on keep Q (bind (bind p f) g) h.
Proof.
  revert h. induction p as [a | e | c | X ev k IH]; intros h Hp; cbn [bind wp_on] in *;
    try exact Hp.
  intros x. apply IH, Hp.
Qed.

Lemma omap_filter {B} (f : Obs -> option B) (keep : Obs -> bool) (l : list Obs) :
  (forall o, keep o = false -> f o = None) ->
  omap f (filter keep l) = omap f l.
Proof.
  intros Hf. induction l as [| o l IH]; [reflexivity |].
  rewrite filter_cons. destruct (decide (keep o)) as [Hk | Hk]; cbn; rewrite IH.
  - reflexivity.
  - rewrite (Hf o); [reflexivity |]. destruct (keep o); [destruct Hk; exact I | reflexivity].
Qed.

Ltac on_walk :=
  repeat first
    [ progress cbn [wp_on when_returned is_post_or_write is_balance_or_verdict verdict_text
                    is_post is_any_write orb String.eqb Ascii.eqb Bool.eqb
                    map_async_from replicate transactions lookup list_lookup
                    mbind Prog_bind bind try_catch await lift trigger
                    console_log console_error]
    | match goal with
      | |- True => exact I
      | |- forall _ : _ + _, _ => intros [? | ?]
      | |- forall _, _ => intros ?
      | |- context [lift ?r] =>
          first [ match goal with H : r = _ |- _ => rewrite H end | destruct r eqn:? ]
      | |- wp_on _ _ (bind (mbind _ _) _) _ => unfold mbind, Prog_bind
      | |- wp_on _ _ (bind (bind _ _) _) _ => apply wp_on_assoc
      | |- wp_on _ _ (bind (map_async_from _ _ _) _) _ =>
          apply wp_on_skip; [quiet | intros ?]
      end ].

Ltac on_through_runTest lemma :=
  unfold runTest, loadKeypair, Keypair_generate, checkBalance, map_async;
  rewrite declare_expected_value, txnFee_value;
  match goal with
  | |- context [numRecipients ?m] =>
      let n := eval vm_compute in (numRecipients m) in
      change (numRecipients m) with n
  end;
  on_walk;
  match goal with
  | |- context [scenario_switch ?m ?k ?r ?b 5000 ?st] =>
      change (scenario_switch m k r b 5000 st) with (runTest_scenario m k r b)
  end;
  let Hscenario := fresh "Hscenario" in
  match goal with
  | |- context [runTest_scenario _ ?k [?r1; ?r2] ?b] =>
      pose proof (lemma k r1 r2 b) as Hscenario
  | |- context [runTest_scenario _ ?k [?r] ?b] =>
      pose proof (lemma k r b) as Hscenario
  end;
  rewrite lemma;
  unfold sign_all, submit_switch, sendTransaction, sendTransactionBundle, confirm_all,
    confirmTransaction, report_recipient, checkBalance, map_async;
  on_walk.

Ltac decide_bundle :=
  match goal with
  | |- context [includes ?m ?s] =>
      let b := eval vm_compute in (includes m s) in
      change (includes m s) with b
  end;
  cbv iota.

Ltac submission_recorded :=
  unfold records_submission;
  eexists _, _;
  split; [reflexivity |];
  split; [reflexivity |];
  split; [reflexivity |];
  decide_bundle;
  first [ reflexivity | eexists; split; reflexivity ].

Lemma runTest_records_submission g mode :
  In mode test_modes ->
  wp_on is_post_or_write (when_returned (fun h _ => records_submission g mode h))
    (runTest g mode) [].
Proof.
  intros Hmode. cbn [test_modes In] in Hmode.
  destruct Hmode as [<- | [<- | [<- | [<- | [<- | []]]]]].
  - on_through_runTest scenario_valid_single. submission_recorded.
  - on_through_runTest scenario_invalid_single. submission_recorded.
  - on_through_runTest scenario_valid_bundle. submission_recorded.
  - on_through_runTest scenario_invalid_bundle_first. submission_recorded.
  - on_through_runTest scenario_invalid_bundle_second. submission_recorded.
Qed.

Lemma posts_of_kept (l : list Obs) :
  posts (filter (obs_is is_post_or_write) l) = posts l.
Proof.
  apply omap_filter. intros [X ev x] Hkeep.
  destruct ev; try reflexivity; discriminate Hkeep.
Qed.

Lemma written_of_kept (l : list Obs) :
  written (filter (obs_is is_post_or_write) l) = written l.
Proof.
  apply omap_filter. intros [X ev x] Hkeep.
  destruct ev; try reflexivity; discriminate Hkeep.
Qed.

(** X11. A run of [runTest] that returns, in any of the five scenarios,
    has posted exactly one request to the relay and written exactly one
    file, [test-transactions.json]; the file is the record, under the
    scenario's name, of the very byte strings whose base58 texts the
    request carried, one per recipient. *)
Theorem completed_run_records_what_it_submitted g mode s :
  In mode test_modes ->
  outcome_of (run (runTest g mode) s) = Returned tt ->
  exists payloads body,
    posts (trace_of (run (runTest g mode) s)) = [(template (ATLAS_SERVICE_URL g), body)] /\
    written (trace_of (run (runTest g mode) s)) =
      [("test-transactions.json", JSON_stringify (run_record mode payloads))] /\
    length payloads = numRecipients mode /\
    if includes mode "bundle"
    then body = jsonrpc_request "sendTransactionBundle"
                  (JArr (map (fun bytes => JStr (bs58_encode bytes)) payloads))
    else exists bytes, payloads = [bytes] /\
           body = jsonrpc_request "sendTransaction" (JStr (bs58_encode bytes)).
Proof.
  intros Hmode Hout.
  pose proof (wp_on_run _ _ _ [] s (runTest_records_submission g mode Hmode)) as H.
  rewrite Hout in H. cbn [when_returned app] in H. unfold records_submission in H.
  rewrite posts_of_kept, written_of_kept in H. exact H.
Qed.






(** X13. A call of either relay operation ends in one of three ways. It
    returns the [data] of the response, after one request and the three
    lines about the response. It throws the error of the request, after
    one request and one line on [console.error]: the error is printed and
    thrown on, not swallowed. Or it throws before any request and prints
    nothing, a transaction that does not serialize. It never ends the
    process. *)
Theorem relay_call_outcomes g s tx txs :
  relay_call_ends "Error sending transaction:"
    (trace_of (run (sendTransaction g tx) s))
    (outcome_of (run (sendTransaction g tx) s)) /\
  relay_call_ends "Error sending transaction bundle:"
    (trace_of (run (sendTransactionBundle g txs) s))
    (outcome_of (run (sendTransactionBundle g txs) s)).
Proof.
  split.
  - unfold sendTransaction, trace_of, outcome_of.
    destruct (tx_serialize tx) as [e | bytes]; [left; reflexivity |].
    step_run. destruct answer as [e | response]; step_run; cbn [fst snd relay_call_ends];
      repeat match goal with x : unit |- _ => destruct x end.
    + right. eexists _, _. reflexivity.
    + eexists _, _, _. split; reflexivity.
  - unfold sendTransactionBundle, map_async, trace_of, outcome_of.
    destruct (serialize_each txs 0) as [[payloads [_ ->]] | [_ [e ->]]];
      [| left; reflexivity].
    step_run. destruct answer as [e | response]; step_run; cbn [fst snd relay_call_ends];
      repeat match goal with x : unit |- _ => destruct x end.
    + right. eexists _, _. reflexivity.
    + eexists _, _, _. split; reflexivity.
Qed.

(** ** Where the requests go *)

Lemma Connection_new_endpoint endpoint c :
  Connection_new endpoint = inr c -> rpcEndpoint c = endpoint.
Proof.
  unfold Connection_new. destruct (_ || _); [| discriminate].
  intros [= <-]. reflexivity.
Qed.

Ltac polite :=
  repeat first
    [ progress cbn [always talks_to map_async_from lookup list_lookup mbind Prog_bind bind
                    try_catch await lift trigger console_log console_error]
    | match goal with
      | |- True => exact I
      | |- True /\ _ => split; [exact I |]
      | |- _ = _ /\ _ => split; [first [reflexivity | assumption] |]
      | |- forall _ : _ + _, _ => intros [? | ?]
      | |- forall _, _ => intros ?
      | |- always _ (map_async_from _ _ _) _ =>
          apply (always_map_async (talks_to _ _)); intros ? ?
      | |- always _ (mbind _ _) _ => unfold mbind, Prog_bind
      | |- always _ (bind (lift (Connection_new ?e)) _) _ =>
          let H := fresh "Hendpoint" in
          destruct (Connection_new e) eqn:H; [| apply Connection_new_endpoint in H]
      | |- always _ (bind _ _) _ => apply (always_bind (talks_to _ _)); [| intros ?]
      | |- always _ (try_catch _ _) _ => apply (always_try_catch (talks_to _ _)); [| intros ?]
      | |- always _ (if ?b then _ else _) _ => destruct b
      | |- always _ (match ?r with Some _ => _ | None => _ end) _ => destruct r
      | |- always _ (lift ?r) _ => destruct r
      end ].

Lemma runTest_talks_to g mode :
  always (fun _ => talks_to (template (RPC_URL g)) (Some (template (ATLAS_SERVICE_URL g))))
    (runTest g mode) [].
Proof. open_runTest. polite. Qed.

Lemma setupKeypair_talks_to PUBLIC_DEVNET_RPC :
  always (fun _ => talks_to (template PUBLIC_DEVNET_RPC) None)
    (setupKeypair PUBLIC_DEVNET_RPC) [].
Proof. unfold setupKeypair, Keypair_generate. polite. Qed.

(** X14. Whatever the scenario name, every request of [runTest] to the
    ledger gateway is made on a connection to [RPC_URL] and every request
    to the relay is posted to [ATLAS_SERVICE_URL]. Every request of
    [setupKeypair] to the ledger gateway is made on a connection to
    [PUBLIC_DEVNET_RPC], and it posts nothing. *)
Theorem requests_go_to_the_configured_endpoints g mode PUBLIC_DEVNET_RPC s :
  Forall (fun o => match o with
                   | Observed ev _ =>
                       talks_to (template (RPC_URL g))
                                (Some (template (ATLAS_SERVICE_URL g))) _ ev
                   end)
         (trace_of (run (runTest g mode) s)) /\
  Forall (fun o => match o with
                   | Observed ev _ => talks_to (template PUBLIC_DEVNET_RPC) None _ ev
                   end)
         (trace_of (run (setupKeypair PUBLIC_DEVNET_RPC) s)).
Proof.
  split.
  - exact (always_trace _ _ _ s (runTest_talks_to g mode)).
  - exact (always_trace _ _ _ s (setupKeypair_talks_to PUBLIC_DEVNET_RPC)).
Qed.

(** ** Confirmations *)







(** ** A fresh key *)

Lemma never_written {A} (p : Prog A) s :
  never (@is_any_write) p -> written (trace_of (run p s)) = [].
Proof.
  intros Hp. pose proof (never_trace _ p s Hp) as Hall.
  induction Hall as [| [X ev x] l Ho _ IH]; [reflexivity |].
  unfold written in *. cbn [omap list_omap]. fold (@omap list _).
  destruct ev; try exact IH. discriminate Ho.
Qed.

(** X16. When the setup step is configured and finds no key file, the
    first things it does are to draw the private key and to write
    [keypair.json] and then [public-key.txt], before any request to the
    network; these are the only files it writes, whatever happens
    afterwards, and [public-key.txt] holds the text of the public key of
    the keypair in [keypair.json]. *)
Theorem fresh_setup_saves_the_key_first PUBLIC_DEVNET_RPC s scalar :
  falsy PUBLIC_DEVNET_RPC = false ->
  files s !! "keypair.json" = None ->
  (oracle _ RandomPrivateKey (world s)).1 = scalar ->
  let generated := Keypair_of_scalar scalar in
  let key_text := "[" +:+ Uint8Array_toString (secretKey generated) +:+ "]" in
  take 4 (trace_of (run (setupKeypair PUBLIC_DEVNET_RPC) s)) =
    [ Observed (FsExistsSync "keypair.json") false;
      Observed RandomPrivateKey scalar;
      Observed (FsWriteFileSync "keypair.json" key_text) tt;
      Observed (FsWriteFileSync "public-key.txt" (bs58_encode (publicKey generated))) tt ] /\
  written (trace_of (run (setupKeypair PUBLIC_DEVNET_RPC) s)) =
    [ ("keypair.json", key_text);
      ("public-key.txt", bs58_encode (publicKey generated)) ] /\
  files (state_of (run (setupKeypair PUBLIC_DEVNET_RPC) s)) !! "public-key.txt" =
    Some (bs58_encode (publicKey generated)).
Proof.
  intros Hdev Hnone Hrandom generated key_text.
  unfold setupKeypair. rewrite Hdev. unfold Keypair_generate. unfold_prog.
  rewrite trace_of_Vis, state_of_Vis. cbn [handle fst snd]. rewrite Hnone.
  change (bool_decide (is_Some (@None string))) with false. unfold_prog.
  rewrite trace_of_Vis, state_of_Vis. cbn [handle].
  destruct (oracle _ RandomPrivateKey (world s)) as [answer w] eqn:Horacle.
  cbn [fst] in Hrandom. subst answer. cbn [fst snd]. unfold_prog.
  rewrite trace_of_Vis, state_of_Vis. cbn [handle fst snd].
  rewrite trace_of_Vis, state_of_Vis. cbn [handle fst snd].
  unfold Buffer_toString, Buffer_from. rewrite string_of_list_byte_of_string.
  fold generated. fold key_text.
  match goal with
  | |- context [trace_of (run ?p ?s')] =>
      assert (Hrest : never (@is_any_write) p) by (hush idtac);
      set (rest := p) in *; set (after := s') in *
  end.
  split; [reflexivity |]. split.
  - unfold written. cbn [omap list_omap]. fold (@omap list _).
    change (omap _ (trace_of (run rest after))) with (written (trace_of (run rest after))).
    rewrite (never_written rest after Hrest). reflexivity.
  - rewrite (never_any_write_keeps_files rest after Hrest).
    unfold after. cbn [files]. apply lookup_insert_eq.
Qed.

End Harness.

(** ** The statements on the sample world *)

Local Abbreviation sample_run := (run unit sample_oracle).
Local Abbreviation sample_trace := (trace_of unit).
Local Abbreviation sample_scenario := (runTest_scenario sample_transfer_data).
Local Abbreviation sample_runTest :=
  (runTest sample_getPublicKey sample_transfer_data sample_tx_sign sample_tx_serialize
     sample_bs58_encode sample_JSON_stringify).
Local Abbreviation sample_main :=
  (main sample_getPublicKey sample_transfer_data sample_tx_sign sample_tx_serialize
     sample_bs58_encode sample_JSON_stringify).
Local Abbreviation sample_module :=
  (build_transactions sample_getPublicKey sample_transfer_data sample_tx_sign
     sample_tx_serialize sample_bs58_encode sample_JSON_stringify).

(** C3 (the claim as stated fails). The amount of valid-single is
    [BigInt(0.01 * LAMPORTS_PER_SOL)]: the operand 0.01 is a binary64
    number that is neither an integer nor one hundredth, and the binary64
    product is rounded; it differs from the exact product of its operands.
    The amount is 10000000 all the same. *)
Lemma C3_counterexample_valid_single_amount_is_a_rounded_product :
  BigInt (Number.mul (Number.decimal 1 2) LAMPORTS_PER_SOL) = inr 10000000 /\
  Number.is_integral (Number.decimal 1 2) = false /\
  ~ (Number.to_Q (Number.decimal 1 2) == 1 # 100)%Q /\
  ~ (Number.to_Q (Number.mul (Number.decimal 1 2) LAMPORTS_PER_SOL) ==
     Number.to_Q (Number.decimal 1 2) * Number.to_Q LAMPORTS_PER_SOL)%Q.
Proof.
  split; [vm_compute; reflexivity |].
  split; [vm_compute; reflexivity |].
  split; intros H; apply Qeq_bool_iff in H; vm_compute in H; discriminate H.
Qed.

Lemma C3_witness :
  In "valid-bundle" test_modes /\
  length [sample_keypair; sample_keypair] = numRecipients "valid-bundle" /\
  exists st (legs : list (PublicKey * Z * string)),
    sample_scenario "valid-bundle" sample_keypair [sample_keypair; sample_keypair] "live" =
      Ret st /\
    transactions st =
      map (fun '(to, amount, h) =>
             VersionedTransaction_new
               (messageV0 sample_transfer_data sample_keypair to amount h)) legs /\
    expectedRecipientChanges st = map (fun '(_, amount, _) => amount) legs /\
    Forall (fun '(_, amount, _) =>
              0 <= amount /\
              exists n, In n [1; 2; 3] /\
                BigInt (Number.mul LAMPORTS_PER_SOL (Number.decimal n 2)) = inr amount /\
                BigInt (Number.mul (Number.decimal n 2) LAMPORTS_PER_SOL) = inr amount /\
                amount = n * 10000000) legs.
Proof.
  split; [right; right; left; reflexivity |].
  split; [reflexivity |].
  apply (C3_amounts_are_exact_integers sample_transfer_data "valid-bundle" sample_keypair
           [sample_keypair; sample_keypair] "live");
    [right; right; left; reflexivity | reflexivity].
Defined.

Lemma C4_witness :
  falsy (Some "https://api.devnet.solana.com") = false /\
  files sample_empty !! "keypair.json" = None /\
  (sample_oracle _ RandomPrivateKey (world sample_empty)).1 = sample_scalar /\
  length sample_scalar = 32%nat /\
  length (sample_getPublicKey sample_scalar) = 32%nat /\
  files (state_of unit
           (sample_run (setupKeypair sample_getPublicKey sample_bs58_encode
                          (Some "https://api.devnet.solana.com")) sample_empty))
    !! "keypair.json" =
    Some ("[" +:+ Uint8Array_toString
                    (secretKey (Keypair_of_scalar sample_getPublicKey sample_scalar)) +:+ "]") /\
  JSON_parse ("[" +:+ Uint8Array_toString
                        (secretKey (Keypair_of_scalar sample_getPublicKey sample_scalar)) +:+ "]") =
    inr (map (fun b => Number.of_Z (Z.of_N (Byte.to_N b)))
             (secretKey (Keypair_of_scalar sample_getPublicKey sample_scalar))) /\
  forall s2 : State unit,
    files s2 !! "keypair.json" =
      Some ("[" +:+ Uint8Array_toString
                      (secretKey (Keypair_of_scalar sample_getPublicKey sample_scalar)) +:+ "]") ->
    outcome_of unit (sample_run (loadKeypair sample_getPublicKey) s2) =
      Returned (Keypair_of_scalar sample_getPublicKey sample_scalar).
Proof.
  split; [reflexivity |].
  split; [reflexivity |].
  split; [reflexivity |].
  split; [reflexivity |].
  split; [reflexivity |].
  apply (C4_keypair_file_round_trip sample_getPublicKey sample_bs58_encode unit sample_oracle
           (Some "https://api.devnet.solana.com") sample_empty sample_scalar);
    reflexivity.
Defined.


Lemma C6_witness :
  (sample_no_env "ATLAS_SERVICE_URL" = None \/ sample_no_env "RPC_URL" = None) /\
  sample_run (sample_module sample_no_env (Some "valid-single")) sample_with_key =
    ([], sample_with_key, Uncaught (Error "ATLAS_SERVICE_URL and RPC_URL must be set")) /\
  exit_code (outcome_of unit
               (sample_run (sample_module sample_no_env (Some "valid-single"))
                  sample_with_key)) <> 0.
Proof.
  split; [left; reflexivity |].
  apply (C6_missing_endpoint_is_fatal sample_getPublicKey sample_transfer_data sample_tx_sign
           sample_tx_serialize sample_bs58_encode sample_JSON_stringify unit sample_oracle
           sample_no_env (Some "valid-single") sample_with_key).
  left. reflexivity.
Defined.

Lemma C9_witness :
  In "invalid-bundle-second" test_modes /\
  sample_trace (sample_run (sample_runTest sample_globals "invalid-bundle-second") sample_with_key) =
    take 15 (sample_trace (sample_run (sample_runTest sample_globals "invalid-bundle-second")
                             sample_with_key))
    ++ Observed (AxiosPost "http://relay.test"
                   (jsonrpc_request "sendTransactionBundle" (JArr [JStr ""; JStr ""])))
                (inr sample_response)
    :: drop 16 (sample_trace (sample_run (sample_runTest sample_globals "invalid-bundle-second")
                                sample_with_key)) /\
  stale_blockhash = string_of_list_ascii (replicate 32 "1"%char) /\
  exists keypair recipients live st signed payloads,
    length (filter obs_is_fetch
              (take 15 (sample_trace
                          (sample_run (sample_runTest sample_globals "invalid-bundle-second")
                             sample_with_key)))) = 1%nat /\
    fetched (take 15 (sample_trace
                        (sample_run (sample_runTest sample_globals "invalid-bundle-second")
                           sample_with_key))) = [live] /\
    length recipients = numRecipients "invalid-bundle-second" /\
    sample_scenario "invalid-bundle-second" keypair recipients live = Ret st /\
    map (fun tx => recentBlockhash (message tx)) (transactions st) =
      map (fun stale : bool => if stale then stale_blockhash else live)
          (spec_stale_legs "invalid-bundle-second") /\
    Forall2 (fun tx stx => sample_tx_sign tx [keypair] = inr stx) (transactions st) signed /\
    Forall2 (fun stx bytes => sample_tx_serialize stx = inr bytes) signed payloads /\
    "http://relay.test" = template (ATLAS_SERVICE_URL sample_globals) /\
    ((exists bytes, payloads = [bytes] /\
        jsonrpc_request "sendTransactionBundle" (JArr [JStr ""; JStr ""]) =
        jsonrpc_request "sendTransaction" (JStr (sample_bs58_encode bytes))) \/
     jsonrpc_request "sendTransactionBundle" (JArr [JStr ""; JStr ""]) =
     jsonrpc_request "sendTransactionBundle"
       (JArr (map (fun bytes => JStr (sample_bs58_encode bytes)) payloads))).
Proof.
  split; [right; right; right; right; left; reflexivity |].
  split; [vm_compute; reflexivity |].
  apply (C9_reference_points sample_getPublicKey sample_transfer_data sample_tx_sign
           sample_tx_serialize sample_bs58_encode sample_JSON_stringify unit sample_oracle
           sample_globals "invalid-bundle-second" sample_with_key
           (take 15 (sample_trace
                       (sample_run (sample_runTest sample_globals "invalid-bundle-second")
                          sample_with_key)))
           "http://relay.test"
           (jsonrpc_request "sendTransactionBundle" (JArr [JStr ""; JStr ""]))
           (inr sample_response)
           (drop 16 (sample_trace
                       (sample_run (sample_runTest sample_globals "invalid-bundle-second")
                          sample_with_key))));
    [right; right; right; right; left; reflexivity | vm_compute; reflexivity].
Defined.

Lemma C10_witness :
  In "invalid-single" test_modes /\
  length [sample_keypair] = numRecipients "invalid-single" /\
  txnFee = inr 5000 /\
  exists st (legs : list (PublicKey * Z * string)),
    sample_scenario "invalid-single" sample_keypair [sample_keypair] "live" = Ret st /\
    transactions st =
      map (fun '(to, amount, h) =>
             VersionedTransaction_new
               (messageV0 sample_transfer_data sample_keypair to amount h)) legs /\
    expectedRecipientChanges st = map (fun '(_, amount, _) => amount) legs /\
    expectedSenderChange st =
      - foldr (fun '(_, amount, _) total => (amount + 5000) + total) 0 legs.
Proof.
  split; [right; left; reflexivity |].
  split; [reflexivity |].
  apply (C10_fee_charged_per_built_transaction sample_transfer_data "invalid-single"
           sample_keypair [sample_keypair] "live");
    [right; left; reflexivity | reflexivity].
Defined.

(** ** Further statements on the sample world *)

Local Abbreviation sample_loadKeypair := (loadKeypair sample_getPublicKey).
Local Abbreviation sample_setupKeypair :=
  (setupKeypair sample_getPublicKey sample_bs58_encode).

Lemma loadKeypair_accepts_only_consistent_keys_witness :
  files sample_with_key !! "keypair.json" =
    Some ("[" +:+ Uint8Array_toString (secretKey sample_keypair) +:+ "]") /\
  sample_trace (sample_run sample_loadKeypair sample_with_key) =
    [Observed (FsReadFileSync "keypair.json")
       (inr ("[" +:+ Uint8Array_toString (secretKey sample_keypair) +:+ "]"))] /\
  outcome_of unit (sample_run sample_loadKeypair sample_with_key) =
    if negb (length (secretKey sample_keypair) =? 64)%nat
    then Uncaught (Error "bad secret key size")
    else if bool_decide (take 32 (sample_getPublicKey (take 32 (secretKey sample_keypair))) =
                         drop 32 (secretKey sample_keypair))
         then Returned {| publicKey := drop 32 (secretKey sample_keypair);
                          secretKey := secretKey sample_keypair |}
         else Uncaught (Error "provided secretKey is invalid").
Proof.
  split; [reflexivity |].
  apply (loadKeypair_accepts_only_consistent_keys sample_getPublicKey unit sample_oracle
           sample_with_key (secretKey sample_keypair)).
  reflexivity.
Defined.

Lemma runTest_stops_when_the_key_does_not_load_witness :
  outcome_of unit (sample_run sample_loadKeypair sample_empty) =
    Uncaught (SystemError "ENOENT" "keypair.json") /\
  sample_trace (sample_run (sample_runTest sample_globals "valid-bundle") sample_empty) =
    sample_trace (sample_run sample_loadKeypair sample_empty) /\
  outcome_of unit (sample_run (sample_runTest sample_globals "valid-bundle") sample_empty) =
    Uncaught (SystemError "ENOENT" "keypair.json") /\
  filter obs_is_network
    (sample_trace (sample_run (sample_runTest sample_globals "valid-bundle") sample_empty)) = [] /\
  filter (obs_is (@is_random))
    (sample_trace (sample_run (sample_runTest sample_globals "valid-bundle") sample_empty)) = [].
Proof.
  split; [reflexivity |].
  apply (runTest_stops_when_the_key_does_not_load sample_getPublicKey sample_transfer_data
           sample_tx_sign sample_tx_serialize sample_bs58_encode sample_JSON_stringify unit
           sample_oracle sample_globals "valid-bundle" sample_empty
           (SystemError "ENOENT" "keypair.json")).
  reflexivity.
Defined.

Lemma harness_leaves_other_files_alone_witness :
  "keypair.json" <> "test-transactions.json" /\
  files (state_of unit
           (sample_run (sample_module sample_env (Some "valid-single")) sample_with_key))
    !! "keypair.json" =
  files sample_with_key !! "keypair.json".
Proof.
  split; [discriminate |].
  apply (harness_leaves_other_files_alone sample_getPublicKey sample_transfer_data
           sample_tx_sign sample_tx_serialize sample_bs58_encode sample_JSON_stringify unit
           sample_oracle sample_env (Some "valid-single") sample_with_key "keypair.json").
  discriminate.
Defined.

Lemma exit_status_depends_on_the_argument_only_witness :
  falsy (sample_env "ATLAS_SERVICE_URL") = false /\
  falsy (sample_env "RPC_URL") = false /\
  outcome_of unit
    (run unit sample_rejecting_oracle (sample_module sample_env (Some "invalid-single"))
       sample_with_key) =
    (if falsy (Some "invalid-single") ||
        negb (existsb (String.eqb (template (Some "invalid-single"))) test_modes)
     then Exited 1 else Returned tt) /\
  exit_code
    (outcome_of unit
       (run unit sample_rejecting_oracle (sample_module sample_env (Some "invalid-single"))
          sample_with_key)) =
    (if falsy (Some "invalid-single") ||
        negb (existsb (String.eqb (template (Some "invalid-single"))) test_modes)
     then 1 else 0).
Proof.
  split; [reflexivity |]. split; [reflexivity |].
  apply (exit_status_depends_on_the_argument_only sample_getPublicKey sample_transfer_data
           sample_tx_sign sample_tx_serialize sample_bs58_encode sample_JSON_stringify unit
           sample_rejecting_oracle sample_env (Some "invalid-single") sample_with_key);
    reflexivity.
Defined.

Lemma rejected_submission_aborts_the_run_witness :
  In "invalid-single" test_modes /\
  In (Rejection "Request failed with status code 400")
     (rejections
        (trace_of unit
           (run unit sample_rejecting_oracle (sample_runTest sample_globals "invalid-single")
              sample_with_key))) /\
  outcome_of unit
    (run unit sample_rejecting_oracle (sample_runTest sample_globals "invalid-single")
       sample_with_key) =
    Uncaught (Rejection "Request failed with status code 400") /\
  filter (obs_is (@is_confirm))
    (trace_of unit
       (run unit sample_rejecting_oracle (sample_runTest sample_globals "invalid-single")
          sample_with_key)) = [] /\
  written
    (trace_of unit
       (run unit sample_rejecting_oracle (sample_runTest sample_globals "invalid-single")
          sample_with_key)) = [] /\
  length
    (filter (obs_is (@is_balance))
       (trace_of unit
          (run unit sample_rejecting_oracle (sample_runTest sample_globals "invalid-single")
             sample_with_key))) =
    S (numRecipients "invalid-single") /\
  error_lines
    (trace_of unit
       (run unit sample_rejecting_oracle (sample_runTest sample_globals "invalid-single")
          sample_with_key)) =
    [[LStr (if includes "invalid-single" "bundle" then "Error sending transaction bundle:"
            else "Error sending transaction:");
      LErr (Rejection "Request failed with status code 400")]] /\
  last
    (trace_of unit
       (run unit sample_rejecting_oracle (sample_runTest sample_globals "invalid-single")
          sample_with_key)) =
    Some (Observed
            (ConsoleError
               [LStr (if includes "invalid-single" "bundle"
                      then "Error sending transaction bundle:"
                      else "Error sending transaction:");
                LErr (Rejection "Request failed with status code 400")]) tt).
Proof.
  split; [right; left; reflexivity |].
  split; [vm_compute; left; reflexivity |].
  apply (rejected_submission_aborts_the_run sample_getPublicKey sample_transfer_data
           sample_tx_sign sample_tx_serialize sample_bs58_encode sample_JSON_stringify unit
           sample_rejecting_oracle sample_globals "invalid-single" sample_with_key
           (Rejection "Request failed with status code 400"));
    [right; left; reflexivity | vm_compute; left; reflexivity].
Defined.


Lemma setup_keeps_an_existing_key_witness :
  (falsy (Some "https://api.devnet.solana.com") = true \/
   is_Some (files sample_with_key !! "keypair.json")) /\
  files (state_of unit
           (sample_run (sample_setupKeypair (Some "https://api.devnet.solana.com"))
              sample_with_key)) =
  files sample_with_key.
Proof.
  assert (Hcase : falsy (Some "https://api.devnet.solana.com") = true \/
                  is_Some (files sample_with_key !! "keypair.json")).
  { right. eexists. reflexivity. }
  split; [exact Hcase |].
  exact (setup_keeps_an_existing_key sample_getPublicKey sample_bs58_encode unit sample_oracle
           (Some "https://api.devnet.solana.com") sample_with_key Hcase).
Defined.


Lemma completed_run_records_what_it_submitted_witness :
  In "valid-bundle" test_modes /\
  outcome_of unit (sample_run (sample_runTest sample_globals "valid-bundle") sample_with_key) =
    Returned tt /\
  exists payloads body,
    posts (sample_trace
             (sample_run (sample_runTest sample_globals "valid-bundle") sample_with_key)) =
      [(template (ATLAS_SERVICE_URL sample_globals), body)] /\
    written (sample_trace
               (sample_run (sample_runTest sample_globals "valid-bundle") sample_with_key)) =
      [("test-transactions.json",
        sample_JSON_stringify (run_record "valid-bundle" payloads))] /\
    length payloads = numRecipients "valid-bundle" /\
    if includes "valid-bundle" "bundle"
    then body = jsonrpc_request "sendTransactionBundle"
                  (JArr (map (fun bytes => JStr (sample_bs58_encode bytes)) payloads))
    else exists bytes, payloads = [bytes] /\
           body = jsonrpc_request "sendTransaction" (JStr (sample_bs58_encode bytes)).
Proof.
  assert (Hmode : In "valid-bundle" test_modes) by (do 2 right; left; reflexivity).
  split; [exact Hmode |]. split; [reflexivity |].
  apply (completed_run_records_what_it_submitted sample_getPublicKey sample_transfer_data
           sample_tx_sign sample_tx_serialize sample_bs58_encode sample_JSON_stringify unit
           sample_oracle sample_globals "valid-bundle" sample_with_key Hmode).
  reflexivity.
Defined.



Lemma fresh_setup_saves_the_key_first_witness :
  falsy (Some "https://api.devnet.solana.com") = false /\
  files sample_empty !! "keypair.json" = None /\
  (sample_oracle _ RandomPrivateKey (world sample_empty)).1 = sample_scalar /\
  take 4 (sample_trace
            (sample_run (sample_setupKeypair (Some "https://api.devnet.solana.com"))
               sample_empty)) =
    [ Observed (FsExistsSync "keypair.json") false;
      Observed RandomPrivateKey sample_scalar;
      Observed (FsWriteFileSync "keypair.json"
                  ("[" +:+ Uint8Array_toString (secretKey sample_keypair) +:+ "]")) tt;
      Observed (FsWriteFileSync "public-key.txt"
                  (sample_bs58_encode (publicKey sample_keypair))) tt ] /\
  written (sample_trace
             (sample_run (sample_setupKeypair (Some "https://api.devnet.solana.com"))
                sample_empty)) =
    [ ("keypair.json", "[" +:+ Uint8Array_toString (secretKey sample_keypair) +:+ "]");
      ("public-key.txt", sample_bs58_encode (publicKey sample_keypair)) ] /\
  files (state_of unit
           (sample_run (sample_setupKeypair (Some "https://api.devnet.solana.com"))
              sample_empty)) !! "public-key.txt" =
    Some (sample_bs58_encode (publicKey sample_keypair)).
Proof.
  split; [reflexivity |]. split; [reflexivity |]. split; [reflexivity |].
  apply (fresh_setup_saves_the_key_first sample_getPublicKey sample_bs58_encode unit
           sample_oracle (Some "https://api.devnet.solana.com") sample_empty sample_scalar);
    reflexivity.
Defined.
